(** * user-microservice: the user service and the auth controller

    A shallow embedding of [src/user/services/user.service.ts] and of the
    auth controller, over a model of the document store they talk to.

    - Asynchronous methods ([async] / [await]) run to completion one after
      the other, so a method is a function from the store to an outcome and
      a store: the monad [M] below.  A thrown error keeps the store as it
      is at the throw (nothing is rolled back).
    - The account collection is a list of [User] records in insertion order
      (the order in which [find] returns them).
    - The hashing primitive, the token service and the random salt are
      collaborators of the service: they are the fields of the classes
      [Bcrypt] and [AuthService], resp. an explicit argument. *)

From Stdlib Require Import String List Bool Arith Lia.
Import ListNotations.
Open Scope string_scope.

(* ------------------------------------------------------------------ *)
(** * Errors and outcomes *)

(** What a method can throw: an [Error] built by the service itself
    ([throw new Error(...)]), an error raised by the store driver, or the
    [BadRequestException] of the controller.  All three carry a message
    (JavaScript's [err.message]). *)
Inductive Exn : Type :=
| Error (msg : string)
| MongoError (msg : string)
| BadRequestException (msg : string).

Definition message (err : Exn) : string :=
  match err with
  | Error m => m
  | MongoError m => m
  | BadRequestException m => m
  end.

(** The errors of the domain are the ones the service throws itself. *)
Definition isDomainError (err : Exn) : bool :=
  match err with
  | Error _ => true
  | _ => false
  end.

Inductive Outcome (A : Type) : Type :=
| Return (a : A)
| Throw (err : Exn).

Arguments Return {A} a.
Arguments Throw {A} err.

(* ------------------------------------------------------------------ *)
(** * The account store *)

(** The persisted account (the [User] document). *)
Record User : Type := mkUser {
  _id : nat;
  username : string;
  firstName : string;
  lastName : string;
  password : string
}.

(** The store: the collection, the next identifier it hands out, the
    number of writes it has applied, and whether it can be reached
    ([outage = Some m]: every request fails with a driver error of
    message [m]). *)
Record Store : Type := mkStore {
  users : list User;
  nextId : nat;
  writes : nat;
  outage : option string
}.

Definition emptyStore : Store :=
  {| users := []; nextId := 0; writes := 0; outage := None |}.

(** The state-and-exception monad of the asynchronous methods. *)
Definition M (A : Type) : Type := Store -> Outcome A * Store.

Definition ret {A} (a : A) : M A := fun s => (Return a, s).

Definition throw {A} (err : Exn) : M A := fun s => (Throw err, s).

Definition bind {A B} (m : M A) (k : A -> M B) : M B :=
  fun s =>
    match m s with
    | (Return a, s') => k a s'
    | (Throw err, s') => (Throw err, s')
    end.

(** [try { m } catch (err) { h err }] *)
Definition try_catch {A} (m : M A) (h : Exn -> M A) : M A :=
  fun s =>
    match m s with
    | (Return a, s') => (Return a, s')
    | (Throw err, s') => h err s'
    end.

Declare Scope js_scope.
Delimit Scope js_scope with js.
Notation "x <- m ;; k" := (bind m (fun x => k))
  (at level 61, m at next level, right associativity) : js_scope.
Notation "m ;;; k" := (bind m (fun _ => k))
  (at level 61, right associativity) : js_scope.
Open Scope js_scope.

(* ------------------------------------------------------------------ *)
(** * Collaborators *)

(** The password hashing primitive (bcrypt): [hash salt plain] is the
    salted hash of [plain]; [compare plain hashed] tells whether [hashed]
    is a hash of [plain]. *)
Class Bcrypt : Type := {
  hash : nat -> string -> string;
  compare : string -> string -> bool
}.

(** The token service consumed by the controller. *)
Class AuthService : Type := {
  AuthTokenResult : Type;
  createToken : User -> Outcome AuthTokenResult
}.

(* ------------------------------------------------------------------ *)
(** * Documents and queries (the object-document mapper) *)

Module Mongoose.

(** The paths of the [User] schema. *)
Inductive Path : Type := Pusername | PfirstName | PlastName | Ppassword.

Definition Path_eqb (p q : Path) : bool :=
  match p, q with
  | Pusername, Pusername | PfirstName, PfirstName
  | PlastName, PlastName | Ppassword, Ppassword => true
  | _, _ => false
  end.

(** A document held in memory: the field values, whether it has never
    been saved, and the paths marked modified since it was loaded. *)
Record Document : Type := mkDocument {
  doc : User;
  isNew : bool;
  modifiedPaths : list Path
}.

Definition getPath (p : Path) (u : User) : string :=
  match p with
  | Pusername => username u
  | PfirstName => firstName u
  | PlastName => lastName u
  | Ppassword => password u
  end.

Definition putPath (p : Path) (v : string) (u : User) : User :=
  match p with
  | Pusername =>
      {| _id := _id u; username := v; firstName := firstName u;
         lastName := lastName u; password := password u |}
  | PfirstName =>
      {| _id := _id u; username := username u; firstName := v;
         lastName := lastName u; password := password u |}
  | PlastName =>
      {| _id := _id u; username := username u; firstName := firstName u;
         lastName := v; password := password u |}
  | Ppassword =>
      {| _id := _id u; username := username u; firstName := firstName u;
         lastName := lastName u; password := v |}
  end.

Definition isPathModified (p : Path) (d : Document) : bool :=
  existsb (Path_eqb p) (modifiedPaths d).

(** Change tracking of an assignment [d.p = v], as the document library
    does it: the path is marked when the document is new, when the path
    is marked already, or when [v] is not equal to the value held.  An
    assignment of the value already held to a loaded document marks
    nothing. *)
Definition shouldModify (d : Document) (p : Path) (v : string) : bool :=
  isNew d || isPathModified p d || negb (String.eqb v (getPath p (doc d))).

Definition markModified (p : Path) (d : Document) : list Path :=
  if isPathModified p d then modifiedPaths d else p :: modifiedPaths d.

(** The assignment [d.p = v]. *)
Definition set (p : Path) (v : string) (d : Document) : Document :=
  {| doc := putPath p v (doc d);
     isNew := isNew d;
     modifiedPaths :=
       if shouldModify d p v then markModified p d else modifiedPaths d |}.

(** [d.isModified()]: is any path marked? *)
Definition isModified (d : Document) : bool :=
  match modifiedPaths d with
  | [] => false
  | _ :: _ => true
  end.

(** A document as a query returns it: nothing marked. *)
Definition hydrate (u : User) : Document :=
  {| doc := u; isNew := false; modifiedPaths := [] |}.

(** Queries are built first and run by [exec]. *)
Definition Query (A : Type) : Type := list User -> A.

(** [Model.findById(id)], for an identifier that is an ObjectId already;
    the cast of the string a request carries is [RequestId.withObjectId]
    below. *)
Definition findById (id : nat) : Query (option Document) :=
  fun c => option_map hydrate (List.find (fun u => Nat.eqb (_id u) id) c).

(** [Model.find({ username: name })] *)
Definition find (name : string) : Query (list Document) :=
  fun c =>
    List.map hydrate
      (List.filter (fun u => String.eqb (username u) name) c).

(** [query.limit(n)] *)
Definition limit (n : nat) (q : Query (list Document))
  : Query (list Document) :=
  fun c => firstn n (q c).

(** [query.exec()]: fails when the store cannot be reached. *)
Definition exec {A} (q : Query A) : M A :=
  fun s =>
    match outage s with
    | Some m => (Throw (MongoError m), s)
    | None => (Return (q (users s)), s)
    end.

(** The update of the one document with the identifier of [u]. *)
Fixpoint updateOne (u : User) (c : list User) : list User :=
  match c with
  | [] => []
  | x :: r => if Nat.eqb (_id x) (_id u) then u :: r else x :: updateOne u r
  end.

Definition isPresent (id : nat) (c : list User) : bool :=
  existsb (fun u => Nat.eqb (_id u) id) c.

Definition usernameTaken (name : string) (c : list User) : bool :=
  existsb (fun x => String.eqb (username x) name) c.

(** Is the username of [u] held by an account other than [u]? *)
Definition collides (u : User) (c : list User) : bool :=
  existsb (fun x => String.eqb (username x) (username u)
                    && negb (Nat.eqb (_id x) (_id u))) c.

Definition duplicateKey : string := "E11000 duplicate key error".

(** Modelled from the spec: the unique index on [username], declared by
    the user schema, which is not among the sources
    ("insert-with-uniqueness-constraint"; "a creation attempt with a
    colliding username fails").  An insert violates it when the username
    is held already, an update when it moves the username onto the one of
    another account. *)
Definition violatesUniqueIndex (d : Document) (c : list User) : bool :=
  if isNew d then usernameTaken (username (doc d)) c
  else isPathModified Pusername d && collides (doc d) c.

Definition insertOne (u : User) (s : Store) : Store :=
  {| users := users s ++ [u];
     nextId := S (nextId s);
     writes := S (writes s);
     outage := outage s |}.

Definition replaceOne (u : User) (s : Store) : Store :=
  {| users := updateOne u (users s);
     nextId := nextId s;
     writes := S (writes s);
     outage := outage s |}.

Definition documentNotFound : string := "No document found for query".

(** [d.save()]: a new document is inserted.  A loaded document with no
    path marked is left alone: nothing is sent to the store.  A loaded
    document with a marked path is written back, and the save is
    rejected when the document is no longer in the collection.  An
    insert or a write-back fails when the store cannot be reached or
    when the unique index is violated, and then writes nothing. *)
Definition save (d : Document) : M Document :=
  fun s =>
    if negb (isNew d) && negb (isModified d)
    then (Return (hydrate (doc d)), s)
    else
      match outage s with
      | Some m => (Throw (MongoError m), s)
      | None =>
          if violatesUniqueIndex d (users s)
          then (Throw (MongoError duplicateKey), s)
          else if isNew d
          then (Return (hydrate (doc d)), insertOne (doc d) s)
          else if isPresent (_id (doc d)) (users s)
          then (Return (hydrate (doc d)), replaceOne (doc d) s)
          else (Throw (MongoError documentNotFound), s)
      end.

End Mongoose.

(* ------------------------------------------------------------------ *)
(** * The user schema and the request objects *)

Module UserSchema.
Import Mongoose.

Section WithBcrypt.
Context {bcrypt : Bcrypt}.

(** Modelled from the spec: the "compare" half of the password-hash
    compare/set pair on the account object (the user schema is not among
    the sources): "compare the supplied plaintext password against the
    stored hash". *)
Definition comparePassword (user : Document) (candidate : string) : M bool :=
  ret (compare candidate (password (doc user))).

(** Modelled from the spec: the "set" half of that pair: an assignment of
    a plaintext to the [password] path "replace[s] the stored hash with a
    freshly computed hash" of it, so that the field "always holds a hash,
    never plaintext".  [salt] is the random salt drawn for this hash. *)
Definition setPassword (salt : nat) (plain : string) (d : Document)
  : Document :=
  set Ppassword (hash salt plain) d.

End WithBcrypt.
End UserSchema.

Module CreateDto.
Record t : Type := mk {
  username : string;
  password : string;
  firstName : string;
  lastName : string
}.
End CreateDto.

Module AuthorizeDto.
Record t : Type := mk {
  username : string;
  password : string
}.
End AuthorizeDto.

Module UpdateProfileDto.
Record t : Type := mk {
  username : string;
  firstName : string;
  lastName : string
}.
End UpdateProfileDto.

Module ChangePasswordDto.
Record t : Type := mk {
  password : string;
  newPassword : string
}.
End ChangePasswordDto.

(* ------------------------------------------------------------------ *)
(** * UserService *)

Module UserService.
Import Mongoose UserSchema.

Record ExistingUserResult : Type := mkExisting { existing : bool }.

Record UpdateUserResult : Type := mkUpdated { updated : bool }.

Section WithBcrypt.
Context {bcrypt : Bcrypt}.

(** [new this.userModel(dto)]: a new document with a fresh identifier and
    the fields of [dto] assigned to it. *)
Definition newDocument (salt : nat) (dto : CreateDto.t) (id : nat)
  : Document :=
  let blank :=
    {| doc := {| _id := id; username := ""; firstName := "";
                 lastName := ""; password := "" |};
       isNew := true;
       modifiedPaths := [] |} in
  set PlastName (CreateDto.lastName dto)
    (set PfirstName (CreateDto.firstName dto)
       (setPassword salt (CreateDto.password dto)
          (set Pusername (CreateDto.username dto) blank))).

Definition construct (salt : nat) (dto : CreateDto.t) : M Document :=
  fun s => (Return (newDocument salt dto (nextId s)), s).

Definition findByUserId (id : nat) : M Document :=
  let query := findById id in
  user <- exec query;;
  match user with
  | None => throw (Error "User does not exist.")
  | Some user => ret user
  end.

Definition create (salt : nat) (dto : CreateDto.t) : M Document :=
  try_catch
    (query <- construct salt dto;;
     user <- save query;;
     ret user)
    (fun err => throw (Error "User already exists.")).

Definition verify (dto : AuthorizeDto.t) : M Document :=
  let query := limit 1 (find (AuthorizeDto.username dto)) in
  users <- exec query;;
  match users with
  | [] => throw (Error "User not found.")
  | user :: _ =>
      verified <- comparePassword user (AuthorizeDto.password dto);;
      if negb verified
      then throw (Error "Incorrect password.")
      else ret user
  end.

Definition updateProfile (id : nat) (dto : UpdateProfileDto.t)
  : M UpdateUserResult :=
  user <- findByUserId id;;
  let user := set Pusername (UpdateProfileDto.username dto) user in
  let user := set PfirstName (UpdateProfileDto.firstName dto) user in
  let user := set PlastName (UpdateProfileDto.lastName dto) user in
  let result := {| updated := false |} in
  let updated := isModified user in
  if updated
  then save user;;; ret {| updated := true |}
  else ret result.

Definition checkIfExists (name : string) : M ExistingUserResult :=
  let query := limit 1 (find name) in
  users <- exec query;;
  let result := {| existing := false |} in
  if Nat.ltb 0 (List.length users)
  then ret {| existing := true |}
  else ret result.

Definition changePassword (salt : nat) (id : nat)
  (dto : ChangePasswordDto.t) : M UpdateUserResult :=
  user <- findByUserId id;;
  verified <- comparePassword user (ChangePasswordDto.password dto);;
  if negb verified
  then throw (Error "Incorrect password.")
  else
    let user := setPassword salt (ChangePasswordDto.newPassword dto) user in
    save user;;;
    let result := {| updated := true |} in
    ret result.

End WithBcrypt.
End UserService.

(* ------------------------------------------------------------------ *)
(** * AuthContoller *)

Module AuthContoller.
Import Mongoose UserService.

Section WithServices.
Context {bcrypt : Bcrypt} {auth : AuthService}.

(** [this.authService.create(user)] *)
Definition authService_create (user : Document) : M AuthTokenResult :=
  fun s => (createToken (doc user), s).

Definition new (salt : nat) (dto : CreateDto.t) : M AuthTokenResult :=
  try_catch
    (user <- create salt dto;;
     token <- authService_create user;;
     ret token)
    (fun err => throw (BadRequestException (message err))).

Definition authorize (dto : AuthorizeDto.t) : M AuthTokenResult :=
  try_catch
    (user <- verify dto;;
     token <- authService_create user;;
     ret token)
    (fun err => throw (BadRequestException (message err))).

Definition checkIfExists (name : string) : M ExistingUserResult :=
  try_catch
    (existing <- UserService.checkIfExists name;;
     ret existing)
    (fun err => throw (BadRequestException (message err))).

End WithServices.

(** The response the framework sends for the outcome of a handler
    declared with [@HttpCode(code)]: the value as the body on success, the
    status and the message of a [BadRequestException] (400), and a plain
    500 for anything else. *)
Inductive Body (A : Type) : Type :=
| Json (a : A)
| ErrorBody (msg : string).

Arguments Json {A} a.
Arguments ErrorBody {A} msg.

Record HttpResponse (A : Type) : Type := mkResponse {
  status : nat;
  body : Body A
}.

Arguments mkResponse {A} status body.
Arguments status {A} h.
Arguments body {A} h.

Definition respond {A} (code : nat) (o : Outcome A) : HttpResponse A :=
  match o with
  | Return a => {| status := code; body := Json a |}
  | Throw (BadRequestException m) => {| status := 400; body := ErrorBody m |}
  | Throw _ => {| status := 500; body := ErrorBody "Internal server error" |}
  end.

Section Routes.
Context {bcrypt : Bcrypt} {auth : AuthService}.

(** [POST /auth] *)
Definition post_auth (dto : AuthorizeDto.t) (s : Store)
  : HttpResponse AuthTokenResult :=
  respond 200 (fst (authorize dto s)).

End Routes.
End AuthContoller.

(* ------------------------------------------------------------------ *)
(** * Vocabulary of the statements *)

Module Vocabulary.
Import Mongoose UserSchema UserService.

(** The account [u] after the three assignments of [updateProfile]. *)
Definition applyProfile (dto : UpdateProfileDto.t) (u : User) : User :=
  putPath PlastName (UpdateProfileDto.lastName dto)
    (putPath PfirstName (UpdateProfileDto.firstName dto)
       (putPath Pusername (UpdateProfileDto.username dto) u)).

(** Does [dto] differ from the account [u] on one of the three fields? *)
Definition profileDiffers (dto : UpdateProfileDto.t) (u : User) : bool :=
  negb (String.eqb (UpdateProfileDto.username dto) (username u))
  || negb (String.eqb (UpdateProfileDto.firstName dto) (firstName u))
  || negb (String.eqb (UpdateProfileDto.lastName dto) (lastName u)).

(** Does [dto] move the account [u] onto the username of another one? *)
Definition usernameClash (dto : UpdateProfileDto.t) (u : User)
  (c : list User) : bool :=
  negb (String.eqb (UpdateProfileDto.username dto) (username u))
  && collides (applyProfile dto u) c.

Definition assignProfile (dto : UpdateProfileDto.t) (d : Document)
  : Document :=
  set PlastName (UpdateProfileDto.lastName dto)
    (set PfirstName (UpdateProfileDto.firstName dto)
       (set Pusername (UpdateProfileDto.username dto) d)).

Section WithBcrypt.
Context {bcrypt : Bcrypt}.

(** The account [u] after [changePassword] has replaced its hash. *)
Definition rehashed (salt : nat) (plain : string) (u : User) : User :=
  putPath Ppassword (hash salt plain) u.

(** The account a registration inserts. *)
Definition registered (salt : nat) (dto : CreateDto.t) (id : nat) : User :=
  {| _id := id;
     username := CreateDto.username dto;
     firstName := CreateDto.firstName dto;
     lastName := CreateDto.lastName dto;
     password := hash salt (CreateDto.password dto) |}.

(** The body of [create] around an arbitrary save [insert] of the new
    document; [create] is [createOver save]. *)
Definition createOver (insert : Document -> M Document) (salt : nat)
  (dto : CreateDto.t) : M Document :=
  try_catch
    (query <- construct salt dto;;
     user <- insert query;;
     ret user)
    (fun err => throw (Error "User already exists.")).



(** One step of the system: a call of one of the operations of the
    service, or the store becoming (un)reachable. *)
Inductive step : Store -> Store -> Prop :=
| step_create (salt : nat) (dto : CreateDto.t) (s : Store) :
    step s (snd (create salt dto s))
| step_verify (dto : AuthorizeDto.t) (s : Store) :
    step s (snd (verify dto s))
| step_updateProfile (id : nat) (dto : UpdateProfileDto.t) (s : Store) :
    step s (snd (updateProfile id dto s))
| step_checkIfExists (name : string) (s : Store) :
    step s (snd (checkIfExists name s))
| step_changePassword (salt id : nat) (dto : ChangePasswordDto.t)
    (s : Store) :
    step s (snd (changePassword salt id dto s))
| step_outage (o : option string) (s : Store) :
    step s {| users := users s; nextId := nextId s;
              writes := writes s; outage := o |}.

(** The states reachable from the empty store. *)
Inductive reachable : Store -> Prop :=
| reachable_empty : reachable emptyStore
| reachable_step (s s' : Store) :
    reachable s -> step s s' -> reachable s'.

End WithBcrypt.
End Vocabulary.

(* ------------------------------------------------------------------ *)
(** * A concrete world to run the service in *)

Module Fixture.
Import Mongoose UserService.

(** A stand-in for bcrypt: the hash is the salt (one character), a
    separator and the plaintext; [compare] reads the salt back from the
    hash and hashes the candidate with it. *)
Definition demoHash (salt : nat) (plain : string) : string :=
  String (Ascii.ascii_of_nat salt) ("$" ++ plain).

Definition demoCompare (plain hashed : string) : bool :=
  match hashed with
  | EmptyString => false
  | String c _ => String.eqb hashed (demoHash (Ascii.nat_of_ascii c) plain)
  end.

Definition demoBcrypt : Bcrypt :=
  {| hash := demoHash; compare := demoCompare |}.

Definition demoAuth : AuthService :=
  {| AuthTokenResult := string;
     createToken := fun u => Return ("token:" ++ username u) |}.

Definition aliceDto : CreateDto.t :=
  CreateDto.mk "alice" "s3cret" "Alice" "Liddell".

Definition bobDto : CreateDto.t :=
  CreateDto.mk "bob" "hunter2" "Bob" "Builder".

(** The store after alice (identifier 0), then bob (identifier 1), have
    registered. *)
Definition aliceStore : Store :=
  snd (@create demoBcrypt 65 aliceDto emptyStore).

Definition twoStore : Store :=
  snd (@create demoBcrypt 66 bobDto aliceStore).

Definition alice : User :=
  {| _id := 0; username := "alice"; firstName := "Alice";
     lastName := "Liddell"; password := "A$s3cret" |}.

Definition downStore : Store :=
  {| users := users aliceStore; nextId := nextId aliceStore;
     writes := writes aliceStore; outage := Some "connection refused" |}.

End Fixture.

(* ------------------------------------------------------------------ *)
(** * The other two routes, and the assumptions on the collaborators *)

Module AuthRoutes.
Import Mongoose UserService AuthContoller.

Section WithServices.
Context {bcrypt : Bcrypt} {auth : AuthService}.

(** [POST /auth/new], declared with [@HttpCode(HttpStatus.CREATED)] *)
Definition post_auth_new (salt : nat) (dto : CreateDto.t) (s : Store)
  : HttpResponse AuthTokenResult :=
  respond 201 (fst (new salt dto s)).

(** [POST /auth/exists], declared with [@HttpCode(HttpStatus.OK)] *)
Definition post_auth_exists (name : string) (s : Store)
  : HttpResponse ExistingUserResult :=
  respond 200 (fst (AuthContoller.checkIfExists name s)).

End WithServices.
End AuthRoutes.

Module Laws.
Import Mongoose.

Section WithBcrypt.
Context {bcrypt : Bcrypt}.

(** The comparison accepts a plaintext against each of its hashes. *)
Definition acceptsOwnHash : Prop :=
  forall salt plain, compare plain (hash salt plain) = true.

(** The comparison accepts nothing else. *)
Definition rejectsOthers : Prop :=
  forall salt plain candidate,
    compare candidate (hash salt plain) = true -> candidate = plain.

End WithBcrypt.

(** Identifiers and usernames are keys of the collection, and the
    identifiers handed out so far are below the next one. *)
Definition wellKeyed (s : Store) : Prop :=
  NoDup (List.map _id (users s))
  /\ NoDup (List.map username (users s))
  /\ Forall (fun u => _id u < nextId s) (users s).

End Laws.

(* ------------------------------------------------------------------ *)
(** * Identifiers as the requests carry them *)

Module RequestId.
Import Mongoose.

(** The cast of an identifier string to an ObjectId, as the document
    library does it when a query by identifier is run; [None] for a
    string that is no ObjectId. *)
Class ObjectIdCast : Type := {
  castObjectId : string -> option nat
}.

Definition castFailed : string := "Cast to ObjectId failed".

Section WithCast.
Context {bcrypt : Bcrypt} {cast : ObjectIdCast}.

(** [exec()] of a query by the identifier string [id]: it is rejected
    with the cast error of the library, before anything is sent, when
    the string is no ObjectId. *)
Definition withObjectId {A} (id : string) (k : nat -> M A) : M A :=
  match castObjectId id with
  | None => throw (MongoError castFailed)
  | Some oid => k oid
  end.

(** [findByUserId(id: string)], [updateProfile(id: string, dto)] and
    [changePassword(id: string, dto)] as their callers invoke them, the
    identifier still a string: the first thing each does is the query by
    identifier. *)
Definition findByUserId (id : string) : M Document :=
  withObjectId id UserService.findByUserId.

Definition updateProfile (id : string) (dto : UpdateProfileDto.t)
  : M UserService.UpdateUserResult :=
  withObjectId id (fun oid => UserService.updateProfile oid dto).

Definition changePassword (salt : nat) (id : string)
  (dto : ChangePasswordDto.t) : M UserService.UpdateUserResult :=
  withObjectId id (fun oid => UserService.changePassword salt oid dto).

End WithCast.
End RequestId.

Module FixtureMore.
Import Fixture.

(** A stand-in for the cast: the identifiers are the decimal numerals. *)
Fixpoint digits (s : string) (acc : nat) : option nat :=
  match s with
  | EmptyString => Some acc
  | String c r =>
      let n := Ascii.nat_of_ascii c in
      if Nat.leb 48 n && Nat.leb n 57
      then digits r (10 * acc + (n - 48))
      else None
  end.

Definition demoCast : RequestId.ObjectIdCast :=
  {| RequestId.castObjectId :=
       fun s => match s with
                | EmptyString => None
                | _ => digits s 0
                end |}.

(** A token service that is out of order. *)
Definition brokenAuth : AuthService :=
  {| AuthTokenResult := string;
     createToken := fun _ => Throw (Error "signing key missing") |}.

Definition carolDto : CreateDto.t :=
  CreateDto.mk "carol" "pa55word" "Carol" "Danvers".

End FixtureMore.

(* ------------------------------------------------------------------ *)
(** * Facts about the store and the documents *)

Module MongooseFacts.
Import Mongoose.

Lemma exec_up {A} (q : Query A) (s : Store) :
  outage s = None -> exec q s = (Return (q (users s)), s).
Proof. intros Hup. unfold exec. rewrite Hup. reflexivity. Qed.

Lemma exec_read_only {A} (q : Query A) (s : Store) : snd (exec q s) = s.
Proof. unfold exec. destruct (outage s); reflexivity. Qed.

Lemma exec_throws_driver_error {A} (q : Query A) (s : Store) (err : Exn) :
  fst (exec q s) = Throw err -> isDomainError err = false.
Proof.
  unfold exec. destruct (outage s); simpl; intros E.
  - injection E as <-. reflexivity.
  - discriminate.
Qed.

Lemma hydrate_inj (u v : User) : hydrate u = hydrate v -> u = v.
Proof. intros E. injection E. trivial. Qed.

Lemma findById_found (id : nat) (c : list User) (u : User) :
  findById id c = Some (hydrate u) ->
  In u c /\ _id u = id /\ isPresent id c = true.
Proof.
  unfold findById. destruct (List.find _ c) as [v|] eqn:F; simpl; [|discriminate].
  intros E. injection E as ->.
  destruct (find_some _ _ F) as [Hin Hid].
  apply Nat.eqb_eq in Hid.
  repeat split; trivial.
  unfold isPresent. apply existsb_exists. exists u. split; trivial.
  now apply Nat.eqb_eq.
Qed.

Lemma find_found (name : string) (c : list User) (u : User)
  (rest : list Document) :
  find name c = hydrate u :: rest -> In u c /\ username u = name.
Proof.
  unfold find. intros E.
  destruct (filter _ c) as [|v l] eqn:F; simpl in E; [discriminate|].
  injection E as E _. subst v.
  assert (Hin : In u (filter (fun x => String.eqb (username x) name) c))
    by (rewrite F; now left).
  apply filter_In in Hin. destruct Hin as [Hin Hn].
  split; trivial. now apply String.eqb_eq.
Qed.

Lemma find_nil (name : string) (c : list User) :
  find name c = [] <-> forall u, In u c -> username u <> name.
Proof.
  unfold find. split.
  - intros E u Hin Hn.
    assert (Hf : In u (filter (fun x => String.eqb (username x) name) c)).
    { apply filter_In. split; trivial. now apply String.eqb_eq. }
    destruct (filter _ c); [destruct Hf | discriminate].
  - intros Hno. destruct (filter _ c) as [|v l] eqn:F; trivial.
    exfalso.
    assert (Hin : In v (filter (fun x => String.eqb (username x) name) c))
      by (rewrite F; now left).
    apply filter_In in Hin. destruct Hin as [Hin Hn].
    apply (Hno v Hin). now apply String.eqb_eq.
Qed.

Lemma usernameTaken_spec (name : string) (c : list User) :
  usernameTaken name c = true <-> exists u, In u c /\ username u = name.
Proof.
  unfold usernameTaken. rewrite existsb_exists.
  split; intros [u [Hin Hn]]; exists u; split; trivial;
    now apply String.eqb_eq.
Qed.

Lemma limit_one_length (name : string) (c : list User) :
  Nat.ltb 0 (List.length (limit 1 (find name) c)) = usernameTaken name c.
Proof.
  unfold limit, find, usernameTaken.
  induction c as [|x r IH]; simpl; trivial.
  destruct (String.eqb (username x) name); simpl; trivial.
Qed.

Lemma updateOne_found (u : User) (c : list User) :
  isPresent (_id u) c = true ->
  findById (_id u) (updateOne u c) = Some (hydrate u).
Proof.
  unfold findById, isPresent.
  induction c as [|x r IH]; simpl; [discriminate|].
  destruct (Nat.eqb (_id x) (_id u)) eqn:E; simpl.
  - intros _. rewrite Nat.eqb_refl. reflexivity.
  - intros Hp. rewrite E. apply IH, Hp.
Qed.

Lemma updateOne_Forall (P : User -> Prop) (u : User) (c : list User) :
  P u -> Forall P c -> Forall P (updateOne u c).
Proof.
  intros Pu Hc. induction Hc as [|x r Px Hr IH]; simpl; [constructor|].
  destruct (Nat.eqb (_id x) (_id u)); constructor; trivial.
Qed.

Lemma updateOne_length (u : User) (c : list User) :
  List.length (updateOne u c) = List.length c.
Proof.
  induction c as [|x r IH]; simpl; trivial.
  destruct (Nat.eqb (_id x) (_id u)); simpl; congruence.
Qed.

(** Assignments never touch the identifier. *)
Lemma set_id (p : Path) (v : string) (d : Document) :
  _id (doc (set p v d)) = _id (doc d).
Proof. destruct p; reflexivity. Qed.

Lemma set_isNew (p : Path) (v : string) (d : Document) :
  isNew (set p v d) = isNew d.
Proof. reflexivity. Qed.

(** On a freshly loaded document an assignment marks its path exactly
    when the value assigned is not the one held. *)
Lemma set_hydrate_same (p : Path) (u : User) :
  set p (getPath p u) (hydrate u) = hydrate u.
Proof.
  unfold set, shouldModify, isPathModified, hydrate. simpl.
  rewrite String.eqb_refl. simpl. destruct p, u; reflexivity.
Qed.

Lemma set_hydrate_marks (p : Path) (v : string) (u : User) :
  modifiedPaths (set p v (hydrate u))
  = if String.eqb v (getPath p u) then [] else [p].
Proof.
  unfold set, shouldModify, markModified, isPathModified, hydrate. simpl.
  destruct (String.eqb v (getPath p u)); reflexivity.
Qed.

End MongooseFacts.

(* ------------------------------------------------------------------ *)
(** * Properties of UserService *)

Module UserServiceFacts.
Import Mongoose UserSchema UserService Vocabulary MongooseFacts.

(** Unfolding of the monadic glue. *)
Ltac run_js := unfold bind, ret, throw, try_catch; simpl.

Lemma assignProfile_doc (dto : UpdateProfileDto.t) (u : User) :
  doc (assignProfile dto (hydrate u)) = applyProfile dto u.
Proof. reflexivity. Qed.

Lemma assignProfile_isNew (dto : UpdateProfileDto.t) (u : User) :
  isNew (assignProfile dto (hydrate u)) = false.
Proof. reflexivity. Qed.

Lemma assignProfile_isModified (dto : UpdateProfileDto.t) (u : User) :
  isModified (assignProfile dto (hydrate u)) = profileDiffers dto u.
Proof.
  unfold assignProfile, profileDiffers, isModified, set, shouldModify,
    markModified, isPathModified, hydrate. simpl.
  destruct (String.eqb (UpdateProfileDto.username dto) (username u));
    destruct (String.eqb (UpdateProfileDto.firstName dto) (firstName u));
    destruct (String.eqb (UpdateProfileDto.lastName dto) (lastName u));
    reflexivity.
Qed.

Lemma assignProfile_username_marked (dto : UpdateProfileDto.t) (u : User) :
  isPathModified Pusername (assignProfile dto (hydrate u))
  = negb (String.eqb (UpdateProfileDto.username dto) (username u)).
Proof.
  unfold assignProfile, isPathModified, set, shouldModify,
    markModified, isPathModified, hydrate. simpl.
  destruct (String.eqb (UpdateProfileDto.username dto) (username u));
    destruct (String.eqb (UpdateProfileDto.firstName dto) (firstName u));
    destruct (String.eqb (UpdateProfileDto.lastName dto) (lastName u));
    reflexivity.
Qed.

Lemma applyProfile_id (dto : UpdateProfileDto.t) (u : User) :
  _id (applyProfile dto u) = _id u.
Proof. reflexivity. Qed.


Lemma findByUserId_found (id : nat) (s : Store) (d : Document) :
  outage s = None ->
  findById id (users s) = Some d ->
  findByUserId id s = (Return d, s).
Proof.
  intros Hup Hf. unfold findByUserId. run_js.
  rewrite exec_up by exact Hup. rewrite Hf. reflexivity.
Qed.

Lemma findByUserId_read_only (id : nat) (s : Store) :
  snd (findByUserId id s) = s.
Proof.
  unfold findByUserId. run_js.
  pose proof (exec_read_only (findById id) s) as E.
  destruct (exec (findById id) s) as [[[d|]|err] s']; simpl in *; congruence.
Qed.

(** What [updateProfile] does with a loaded account, case by case. *)
Lemma updateProfile_loaded (id : nat) (dto : UpdateProfileDto.t)
  (s : Store) (u : User) :
  outage s = None ->
  findById id (users s) = Some (hydrate u) ->
  updateProfile id dto s =
    if profileDiffers dto u
    then if usernameClash dto u (users s)
         then (Throw (MongoError duplicateKey), s)
         else (Return {| updated := true |}, replaceOne (applyProfile dto u) s)
    else (Return {| updated := false |}, s).
Proof.
  intros Hup Hf.
  destruct (findById_found id (users s) u Hf) as [_ [Hid Hp]].
  unfold updateProfile. unfold bind at 1.
  rewrite (findByUserId_found id s (hydrate u) Hup Hf).
  fold (assignProfile dto (hydrate u)).
  rewrite assignProfile_isModified.
  destruct (profileDiffers dto u) eqn:D; [|reflexivity].
  run_js. unfold save, violatesUniqueIndex.
  rewrite assignProfile_isModified, D, Hup.
  rewrite assignProfile_isNew, assignProfile_username_marked,
    assignProfile_doc. cbn [negb andb].
  fold (usernameClash dto u (users s)).
  destruct (usernameClash dto u (users s)); [reflexivity|].
  rewrite applyProfile_id, Hid, Hp. reflexivity.
Qed.

(** C2: for an existing account, [updateProfile] called with username,
    firstName and lastName equal to the stored values returns
    [{updated: false}] and leaves the store exactly as it was: no write
    is issued and the stored account is unchanged. *)
Theorem updateProfile_same_values_no_write (id : nat) (s : Store) (u : User) :
  outage s = None ->
  findById id (users s) = Some (hydrate u) ->
  updateProfile id
    (UpdateProfileDto.mk (username u) (firstName u) (lastName u)) s
  = (Return {| updated := false |}, s).
Proof.
  intros Hup Hf. rewrite (updateProfile_loaded id _ s u Hup Hf).
  unfold profileDiffers. simpl. rewrite !String.eqb_refl. reflexivity.
Qed.

Lemma updateProfile_same_values_no_write_witness :
  outage Fixture.twoStore = None
  /\ findById 0 (users Fixture.twoStore) = Some (hydrate Fixture.alice)
  /\ updateProfile 0 (UpdateProfileDto.mk "alice" "Alice" "Liddell")
       Fixture.twoStore
     = (Return {| updated := false |}, Fixture.twoStore).
Proof.
  split; [reflexivity|]. split; [reflexivity|].
  apply (updateProfile_same_values_no_write 0 Fixture.twoStore Fixture.alice);
    reflexivity.
Defined.

(** C3, as stated, fails: on the store holding alice and bob, the call
    that re-assigns alice's three stored values reports [updated = false]
    and writes nothing, although the account exists. *)
Lemma updateProfile_equal_assignment_not_dirty :
  findById 0 (users Fixture.twoStore) = Some (hydrate Fixture.alice)
  /\ updateProfile 0 (UpdateProfileDto.mk "alice" "Alice" "Liddell")
       Fixture.twoStore
     = (Return {| updated := false |}, Fixture.twoStore)
  /\ ~ (exists s',
          updateProfile 0 (UpdateProfileDto.mk "alice" "Alice" "Liddell")
            Fixture.twoStore
          = (Return {| updated := true |}, s')
          /\ writes s' = S (writes Fixture.twoStore)).
Proof.
  split; [reflexivity|]. split; [reflexivity|].
  intros [s' [E _]]. vm_compute in E. discriminate E.
Qed.

(** C3, amended: the dirty-check counts an assignment as a modification
    only when the value assigned differs from the stored one.  On an
    existing account [updateProfile] reports [updated = true] and issues
    one write exactly when at least one of username, firstName, lastName
    differs from the stored value (and the new username is not the one of
    another account, in which case the save is rejected and nothing is
    written); when all three are equal it reports [updated = false] and
    issues no write. *)
Theorem updateProfile_updated_iff_differs (id : nat)
  (dto : UpdateProfileDto.t) (s : Store) (u : User) :
  outage s = None ->
  findById id (users s) = Some (hydrate u) ->
  (profileDiffers dto u = false ->
     updateProfile id dto s = (Return {| updated := false |}, s))
  /\ (profileDiffers dto u = true ->
      usernameClash dto u (users s) = false ->
      updateProfile id dto s
      = (Return {| updated := true |}, replaceOne (applyProfile dto u) s)
      /\ writes (replaceOne (applyProfile dto u) s) = S (writes s)
      /\ findById id (users (replaceOne (applyProfile dto u) s))
         = Some (hydrate (applyProfile dto u)))
  /\ (profileDiffers dto u = true ->
      usernameClash dto u (users s) = true ->
      updateProfile id dto s = (Throw (MongoError duplicateKey), s))
  /\ (forall r s',
        updateProfile id dto s = (Return r, s') ->
        updated r = profileDiffers dto u
        /\ writes s' = if profileDiffers dto u then S (writes s)
                       else writes s).
Proof.
  intros Hup Hf.
  pose proof (updateProfile_loaded id dto s u Hup Hf) as E.
  destruct (findById_found id (users s) u Hf) as [_ [Hid Hp]].
  split; [|split; [|split]].
  - intros D. rewrite D in E. exact E.
  - intros D C. rewrite D, C in E. split; [exact E|]. split; [reflexivity|].
    rewrite <- Hid at 1. simpl.
    rewrite <- (applyProfile_id dto u).
    apply updateOne_found. rewrite applyProfile_id, Hid. exact Hp.
  - intros D C. rewrite D, C in E. exact E.
  - intros r s' R. rewrite E in R.
    destruct (profileDiffers dto u);
      [destruct (usernameClash dto u (users s))|];
      inversion R; split; reflexivity.
Qed.

Lemma updateProfile_updated_iff_differs_witness :
  updateProfile 0 (UpdateProfileDto.mk "alice" "Alice" "Kingsleigh")
    Fixture.twoStore
  = (Return {| updated := true |},
     replaceOne
       (applyProfile (UpdateProfileDto.mk "alice" "Alice" "Kingsleigh")
          Fixture.alice)
       Fixture.twoStore).
Proof.
  apply (updateProfile_updated_iff_differs 0
           (UpdateProfileDto.mk "alice" "Alice" "Kingsleigh")
           Fixture.twoStore Fixture.alice);
    reflexivity.
Defined.

Section WithBcrypt.
Context {bcrypt : Bcrypt}.

Lemma setPassword_doc (salt : nat) (plain : string) (u : User) :
  doc (setPassword salt plain (hydrate u)) = rehashed salt plain u.
Proof. reflexivity. Qed.

Lemma setPassword_username_unmarked (salt : nat) (plain : string)
  (u : User) :
  isPathModified Pusername (setPassword salt plain (hydrate u)) = false.
Proof.
  unfold setPassword, isPathModified. rewrite set_hydrate_marks.
  destruct (String.eqb _ _); reflexivity.
Qed.

(** What [changePassword] does with a loaded account. *)
Lemma changePassword_loaded (salt id : nat) (dto : ChangePasswordDto.t)
  (s : Store) (u : User) :
  outage s = None ->
  findById id (users s) = Some (hydrate u) ->
  changePassword salt id dto s =
    if compare (ChangePasswordDto.password dto) (password u)
    then (Return {| updated := true |},
          if String.eqb (hash salt (ChangePasswordDto.newPassword dto))
               (password u)
          then s
          else replaceOne
                 (rehashed salt (ChangePasswordDto.newPassword dto) u) s)
    else (Throw (Error "Incorrect password."), s).
Proof.
  intros Hup Hf.
  destruct (findById_found id (users s) u Hf) as [_ [Hid Hp]].
  unfold changePassword. unfold bind at 1.
  rewrite (findByUserId_found id s (hydrate u) Hup Hf).
  unfold comparePassword. run_js.
  destruct (compare (ChangePasswordDto.password dto) (password u));
    [|reflexivity].
  simpl. unfold save, violatesUniqueIndex, isModified.
  rewrite setPassword_username_unmarked, setPassword_doc.
  unfold setPassword at 1 2. rewrite set_hydrate_marks. simpl.
  destruct (String.eqb (hash salt (ChangePasswordDto.newPassword dto))
              (password u)); simpl; [reflexivity|].
  rewrite Hup, Hid, Hp. reflexivity.
Qed.

(** An account re-hashed to the hash it holds is the same account. *)
Lemma rehashed_same (salt : nat) (plain : string) (u : User) :
  String.eqb (hash salt plain) (password u) = true ->
  rehashed salt plain u = u.
Proof.
  intros E. apply String.eqb_eq in E. unfold rehashed. simpl.
  rewrite E. destruct u; reflexivity.
Qed.

(** C4: for an existing account, [changePassword] called with a current
    password that does not match the stored hash fails with
    "Incorrect password." and leaves the store exactly as it was: the
    stored hash and the rest of the account are unchanged, and no write
    is issued. *)
Theorem changePassword_wrong_password_no_write (salt id : nat)
  (dto : ChangePasswordDto.t) (s : Store) (u : User) :
  outage s = None ->
  findById id (users s) = Some (hydrate u) ->
  compare (ChangePasswordDto.password dto) (password u) = false ->
  changePassword salt id dto s = (Throw (Error "Incorrect password."), s).
Proof.
  intros Hup Hf Hc.
  rewrite (changePassword_loaded salt id dto s u Hup Hf), Hc.
  reflexivity.
Qed.


Lemma verify_read_only (dto : AuthorizeDto.t) (s : Store) :
  snd (verify dto s) = s.
Proof.
  unfold verify, comparePassword. run_js.
  pose proof (exec_read_only (limit 1 (find (AuthorizeDto.username dto))) s)
    as E.
  destruct (exec _ s) as [[[|d l]|err] s']; simpl in *; trivial.
  destruct (compare _ _); simpl; trivial.
Qed.

Lemma verify_found (dto : AuthorizeDto.t) (s : Store) (u : User)
  (rest : list Document) :
  outage s = None ->
  find (AuthorizeDto.username dto) (users s) = hydrate u :: rest ->
  verify dto s =
    if compare (AuthorizeDto.password dto) (password u)
    then (Return (hydrate u), s)
    else (Throw (Error "Incorrect password."), s).
Proof.
  intros Hup Hf. unfold verify, comparePassword. run_js.
  rewrite exec_up by exact Hup. unfold limit. rewrite Hf. simpl.
  destruct (compare _ _); reflexivity.
Qed.

Lemma verify_unknown (dto : AuthorizeDto.t) (s : Store) :
  outage s = None ->
  find (AuthorizeDto.username dto) (users s) = [] ->
  verify dto s = (Throw (Error "User not found."), s).
Proof.
  intros Hup Hf. unfold verify. run_js.
  rewrite exec_up by exact Hup. unfold limit. rewrite Hf. reflexivity.
Qed.

(** C7: when the first account found under the username is [u] and the
    password matches its hash, [verify] returns [u] as stored; and
    [verify], whatever its outcome, leaves the store as it was. *)
Theorem verify_success_read_only (dto : AuthorizeDto.t) (s : Store)
  (u : User) (rest : list Document) :
  outage s = None ->
  find (AuthorizeDto.username dto) (users s) = hydrate u :: rest ->
  compare (AuthorizeDto.password dto) (password u) = true ->
  verify dto s = (Return (hydrate u), s)
  /\ In u (users s)
  /\ (forall dto' s', snd (verify dto' s') = s').
Proof.
  intros Hup Hf Hc. split; [|split].
  - rewrite (verify_found dto s u rest Hup Hf), Hc. reflexivity.
  - apply (find_found _ _ _ _ Hf).
  - exact verify_read_only.
Qed.

End WithBcrypt.

(** C8: when the store answers, [checkIfExists] returns [existing = true]
    if an account has exactly this username and [existing = false] if
    none has, and does not change the store; and whenever it fails, the
    error is the one of the store driver, never one of the domain. *)
Theorem checkIfExists_iff_username_present (name : string) (s : Store) :
  (outage s = None ->
     checkIfExists name s
     = (Return {| existing := usernameTaken name (users s) |}, s))
  /\ (usernameTaken name (users s) = true
       <-> exists u, In u (users s) /\ username u = name)
  /\ (forall err,
        fst (checkIfExists name s) = Throw err -> isDomainError err = false).
Proof.
  split; [|split].
  - intros Hup. unfold checkIfExists. run_js.
    rewrite exec_up by exact Hup.
    rewrite limit_one_length.
    destruct (usernameTaken name (users s)); reflexivity.
  - apply usernameTaken_spec.
  - intros err. unfold checkIfExists. run_js.
    pose proof (exec_throws_driver_error (limit 1 (find name)) s) as D.
    destruct (exec (limit 1 (find name)) s) as [[l|e] s']; simpl in *.
    + destruct (Nat.ltb 0 (List.length l)); discriminate.
    + intros E. injection E as <-. apply D. reflexivity.
Qed.

Lemma checkIfExists_read_only (name : string) (s : Store) :
  snd (checkIfExists name s) = s.
Proof.
  unfold checkIfExists. run_js.
  pose proof (exec_read_only (limit 1 (find name)) s) as E.
  destruct (exec _ s) as [[l|err] s']; simpl in *; trivial.
  destruct (Nat.ltb 0 (List.length l)); trivial.
Qed.

Lemma findById_hydrated (id : nat) (c : list User) (d : Document) :
  findById id c = Some d -> exists u, d = hydrate u.
Proof.
  unfold findById. destruct (List.find _ c) as [u|]; simpl; [|discriminate].
  intros E. injection E as <-. now exists u.
Qed.

(** The store after [updateProfile]: as before, or with one account
    written back with the three fields of the request. *)
Lemma updateProfile_store (id : nat) (dto : UpdateProfileDto.t) (s : Store) :
  snd (updateProfile id dto s) = s
  \/ exists u, In u (users s)
              /\ snd (updateProfile id dto s)
                 = replaceOne (applyProfile dto u) s.
Proof.
  destruct (outage s) as [m|] eqn:Hup.
  - left. unfold updateProfile, findByUserId, exec. run_js.
    rewrite Hup. reflexivity.
  - destruct (findById id (users s)) as [d|] eqn:Hf.
    + destruct (findById_hydrated id (users s) d Hf) as [u ->].
      rewrite (updateProfile_loaded id dto s u Hup Hf).
      destruct (profileDiffers dto u); [|now left].
      destruct (usernameClash dto u (users s)); [now left|].
      right. exists u. split; [|reflexivity].
      apply (findById_found id (users s) u Hf).
    + left. unfold updateProfile, findByUserId. run_js.
      rewrite exec_up by exact Hup. rewrite Hf. reflexivity.
Qed.

Section Create.
Context {bcrypt : Bcrypt}.

Lemma changePassword_store (salt id : nat) (dto : ChangePasswordDto.t)
  (s : Store) :
  snd (changePassword salt id dto s) = s
  \/ exists u, In u (users s)
              /\ snd (changePassword salt id dto s)
                 = replaceOne
                     (rehashed salt (ChangePasswordDto.newPassword dto) u) s.
Proof.
  destruct (outage s) as [m|] eqn:Hup.
  - left. unfold changePassword, findByUserId, exec. run_js.
    rewrite Hup. reflexivity.
  - destruct (findById id (users s)) as [d|] eqn:Hf.
    + destruct (findById_hydrated id (users s) d Hf) as [u ->].
      rewrite (changePassword_loaded salt id dto s u Hup Hf).
      destruct (compare _ _); [|now left].
      destruct (String.eqb _ (password u)); [now left|].
      right. exists u. split; [|reflexivity].
      apply (findById_found id (users s) u Hf).
    + left. unfold changePassword, findByUserId. run_js.
      rewrite exec_up by exact Hup. rewrite Hf. reflexivity.
Qed.

Lemma newDocument_doc (salt : nat) (dto : CreateDto.t) (id : nat) :
  doc (newDocument salt dto id) = registered salt dto id.
Proof. reflexivity. Qed.

Lemma newDocument_isNew (salt : nat) (dto : CreateDto.t) (id : nat) :
  isNew (newDocument salt dto id) = true.
Proof. reflexivity. Qed.

(** The insert of a new document, case by case. *)
Lemma save_new (salt : nat) (dto : CreateDto.t) (s : Store) :
  save (newDocument salt dto (nextId s)) s =
    match outage s with
    | Some m => (Throw (MongoError m), s)
    | None =>
        if usernameTaken (CreateDto.username dto) (users s)
        then (Throw (MongoError duplicateKey), s)
        else (Return (hydrate (registered salt dto (nextId s))),
              insertOne (registered salt dto (nextId s)) s)
    end.
Proof.
  unfold save, violatesUniqueIndex.
  rewrite newDocument_isNew, newDocument_doc. reflexivity.
Qed.

Lemma create_run (salt : nat) (dto : CreateDto.t) (s : Store) :
  create salt dto s =
    match save (newDocument salt dto (nextId s)) s with
    | (Return user, s') => (Return user, s')
    | (Throw _, s') => (Throw (Error "User already exists."), s')
    end.
Proof.
  unfold create, construct. run_js.
  destruct (save (newDocument salt dto (nextId s)) s) as [[d|err] s'];
    reflexivity.
Qed.

(** C9: in a store holding an account with the username of the request,
    [create] fails with "User already exists." and leaves the store, so
    also that account, exactly as it was. *)
Theorem create_existing_username_fails (salt : nat) (dto : CreateDto.t)
  (s : Store) (u : User) :
  In u (users s) ->
  username u = CreateDto.username dto ->
  create salt dto s = (Throw (Error "User already exists."), s)
  /\ In u (users (snd (create salt dto s))).
Proof.
  intros Hin Hn.
  assert (T : usernameTaken (CreateDto.username dto) (users s) = true).
  { apply usernameTaken_spec. exists u. split; trivial. }
  assert (E : create salt dto s = (Throw (Error "User already exists."), s)).
  { rewrite create_run, save_new, T. destruct (outage s); reflexivity. }
  split; [exact E|]. rewrite E. exact Hin.
Qed.

(** C10: [create] fails with "User already exists." exactly when the
    save of the new document fails, and it throws no other error; the
    store it leaves is the one the save left, which after a failed save
    is the store before the call.  This does not depend on
    the cause: with any save whatever in place of the one of the
    document, failing for any reason and with any error, the body of
    [create] throws "User already exists." exactly when that save
    throws. *)
Theorem create_fails_iff_save_fails (salt : nat) (dto : CreateDto.t)
  (s : Store) :
  ((exists cause,
      fst (save (newDocument salt dto (nextId s)) s) = Throw cause)
   <-> fst (create salt dto s) = Throw (Error "User already exists."))
  /\ (forall err,
        fst (create salt dto s) = Throw err ->
        err = Error "User already exists.")
  /\ snd (create salt dto s)
     = snd (save (newDocument salt dto (nextId s)) s)
  /\ (forall cause,
        fst (save (newDocument salt dto (nextId s)) s) = Throw cause ->
        snd (create salt dto s) = s)
  /\ create salt dto = createOver save salt dto
  /\ (forall insert : Document -> M Document,
        ((exists cause,
            fst (insert (newDocument salt dto (nextId s)) s) = Throw cause)
         <-> fst (createOver insert salt dto s)
             = Throw (Error "User already exists."))
        /\ snd (createOver insert salt dto s)
           = snd (insert (newDocument salt dto (nextId s)) s)).
Proof.
  assert (G : forall insert : Document -> M Document,
            ((exists cause,
                fst (insert (newDocument salt dto (nextId s)) s)
                = Throw cause)
             <-> fst (createOver insert salt dto s)
                 = Throw (Error "User already exists."))
            /\ (forall err,
                  fst (createOver insert salt dto s) = Throw err ->
                  err = Error "User already exists.")
            /\ snd (createOver insert salt dto s)
               = snd (insert (newDocument salt dto (nextId s)) s)).
  { intros insert. unfold createOver, construct. run_js.
    destruct (insert (newDocument salt dto (nextId s)) s)
      as [[d|cause] s']; simpl.
    - split; [split|split].
      + intros [cause E]. discriminate E.
      + intros E. discriminate E.
      + intros err E. discriminate E.
      + reflexivity.
    - split; [split|split].
      + reflexivity.
      + intros _. now exists cause.
      + intros err E. injection E as <-. reflexivity.
      + reflexivity. }
  destruct (G save) as [Giff [Gerr Gsnd]].
  split; [exact Giff|]. split; [exact Gerr|]. split; [exact Gsnd|].
  split.
  { intros cause. change (snd (create salt dto s))
      with (snd (createOver save salt dto s)).
    rewrite Gsnd, save_new.
    destruct (outage s); [reflexivity|].
    destruct (usernameTaken _ _); [reflexivity | discriminate]. }
  split; [reflexivity|].
  intros insert. destruct (G insert) as [Iiff [_ Isnd]].
  split; [exact Iiff | exact Isnd].
Qed.

End Create.

Lemma create_existing_username_fails_witness :
  create (bcrypt := Fixture.demoBcrypt) 70 Fixture.aliceDto Fixture.twoStore
  = (Throw (Error "User already exists."), Fixture.twoStore)
  /\ In Fixture.alice
       (users (snd (create (bcrypt := Fixture.demoBcrypt) 70 Fixture.aliceDto
                      Fixture.twoStore))).
Proof.
  apply (create_existing_username_fails (bcrypt := Fixture.demoBcrypt) 70
           Fixture.aliceDto Fixture.twoStore Fixture.alice).
  - simpl. left. reflexivity.
  - reflexivity.
Defined.

(** A registration of bob while the store is down: the save fails for a
    reason other than a collision, and [create] still reports
    "User already exists.". *)
Lemma create_fails_iff_save_fails_witness :
  fst (save
         (newDocument (bcrypt := Fixture.demoBcrypt) 66 Fixture.bobDto
            (nextId Fixture.downStore))
         Fixture.downStore)
  = Throw (MongoError "connection refused")
  /\ usernameTaken "bob" (users Fixture.downStore) = false
  /\ fst (create (bcrypt := Fixture.demoBcrypt) 66 Fixture.bobDto
            Fixture.downStore)
     = Throw (Error "User already exists.").
Proof.
  split; [reflexivity|]. split; [reflexivity|].
  apply (proj1 (proj1 (create_fails_iff_save_fails
                         (bcrypt := Fixture.demoBcrypt) 66
                         Fixture.bobDto Fixture.downStore))).
  exists (MongoError "connection refused"). reflexivity.
Defined.

Lemma checkIfExists_iff_username_present_witness :
  checkIfExists "bob" Fixture.twoStore
  = (Return {| existing := true |}, Fixture.twoStore)
  /\ checkIfExists "carol" Fixture.twoStore
     = (Return {| existing := false |}, Fixture.twoStore).
Proof.
  split.
  - apply (checkIfExists_iff_username_present "bob" Fixture.twoStore).
    reflexivity.
  - apply (checkIfExists_iff_username_present "carol" Fixture.twoStore).
    reflexivity.
Defined.

Lemma changePassword_wrong_password_no_write_witness :
  compare (Bcrypt := Fixture.demoBcrypt) "guess" (password Fixture.alice)
  = false
  /\ changePassword (bcrypt := Fixture.demoBcrypt) 67 0
       (ChangePasswordDto.mk "guess" "letmein") Fixture.twoStore
     = (Throw (Error "Incorrect password."), Fixture.twoStore).
Proof.
  split; [reflexivity|].
  apply (changePassword_wrong_password_no_write (bcrypt := Fixture.demoBcrypt)
           67 0 (ChangePasswordDto.mk "guess" "letmein")
           Fixture.twoStore Fixture.alice);
    reflexivity.
Defined.



Lemma verify_success_read_only_witness :
  verify (bcrypt := Fixture.demoBcrypt) (AuthorizeDto.mk "alice" "s3cret")
    Fixture.twoStore
  = (Return (hydrate Fixture.alice), Fixture.twoStore).
Proof.
  apply (verify_success_read_only (bcrypt := Fixture.demoBcrypt)
           (AuthorizeDto.mk "alice" "s3cret") Fixture.twoStore
           Fixture.alice []);
    reflexivity.
Defined.

Section Invariant.
Context {bcrypt : Bcrypt}.

(** The hashing primitive never returns its input. *)
Hypothesis hash_not_plain : forall salt plain, hash salt plain <> plain.







End Invariant.



End UserServiceFacts.

(* ------------------------------------------------------------------ *)
(** * Properties of AuthContoller *)

Module AuthContollerFacts.
Import Mongoose UserService AuthContoller MongooseFacts UserServiceFacts.

Section WithServices.
Context {bcrypt : Bcrypt} {auth : AuthService}.

Lemma authorize_verify_throws (dto : AuthorizeDto.t) (s s' : Store)
  (err : Exn) :
  verify dto s = (Throw err, s') ->
  authorize dto s = (Throw (BadRequestException (message err)), s').
Proof.
  intros E. unfold authorize, try_catch, bind. rewrite E. reflexivity.
Qed.

(** C1, amended: the two failures of [verify] surface at [POST /auth]
    with the same status, 400, and the same shape, an error body with a
    message; the message is the one [verify] threw, "User not found."
    for an unknown username and "Incorrect password." for a known
    username with a wrong password. *)
Theorem authorize_failures_same_status (s : Store)
  (unknown known : AuthorizeDto.t) (u : User) (rest : list Document) :
  outage s = None ->
  find (AuthorizeDto.username unknown) (users s) = [] ->
  find (AuthorizeDto.username known) (users s) = hydrate u :: rest ->
  compare (AuthorizeDto.password known) (password u) = false ->
  post_auth unknown s
  = {| status := 400; body := ErrorBody "User not found." |}
  /\ post_auth known s
     = {| status := 400; body := ErrorBody "Incorrect password." |}
  /\ status (post_auth unknown s) = status (post_auth known s).
Proof.
  intros Hup Hno Hyes Hc.
  assert (E1 : post_auth unknown s
               = {| status := 400; body := ErrorBody "User not found." |}).
  { unfold post_auth.
    rewrite (authorize_verify_throws unknown s s (Error "User not found.")
               (verify_unknown unknown s Hup Hno)).
    reflexivity. }
  assert (E2 : post_auth known s
               = {| status := 400; body := ErrorBody "Incorrect password." |}).
  { unfold post_auth.
    rewrite (authorize_verify_throws known s s (Error "Incorrect password.")).
    - reflexivity.
    - rewrite (verify_found known s u rest Hup Hyes), Hc. reflexivity. }
  rewrite E1, E2. repeat split.
Qed.

End WithServices.

Lemma authorize_failures_same_status_witness :
  post_auth (bcrypt := Fixture.demoBcrypt) (auth := Fixture.demoAuth)
    (AuthorizeDto.mk "carol" "s3cret") Fixture.twoStore
  = {| status := 400; body := ErrorBody "User not found." |}
  /\ post_auth (bcrypt := Fixture.demoBcrypt) (auth := Fixture.demoAuth)
       (AuthorizeDto.mk "alice" "guess") Fixture.twoStore
     = {| status := 400; body := ErrorBody "Incorrect password." |}
  /\ status (post_auth (bcrypt := Fixture.demoBcrypt) (auth := Fixture.demoAuth)
               (AuthorizeDto.mk "carol" "s3cret") Fixture.twoStore)
     = status (post_auth (bcrypt := Fixture.demoBcrypt) (auth := Fixture.demoAuth)
                 (AuthorizeDto.mk "alice" "guess") Fixture.twoStore).
Proof.
  apply (authorize_failures_same_status (bcrypt := Fixture.demoBcrypt)
           (auth := Fixture.demoAuth) Fixture.twoStore
           (AuthorizeDto.mk "carol" "s3cret")
           (AuthorizeDto.mk "alice" "guess")
           Fixture.alice []);
    reflexivity.
Defined.

(** C1, as stated, fails: on the store holding alice and bob, a login as
    the unknown carol and a login as alice with a wrong password are
    both failures of [verify], and the two responses differ. *)
Lemma authorize_failures_distinguishable :
  fst (verify (bcrypt := Fixture.demoBcrypt)
         (AuthorizeDto.mk "carol" "s3cret") Fixture.twoStore)
  = Throw (Error "User not found.")
  /\ fst (verify (bcrypt := Fixture.demoBcrypt)
            (AuthorizeDto.mk "alice" "guess") Fixture.twoStore)
     = Throw (Error "Incorrect password.")
  /\ post_auth (bcrypt := Fixture.demoBcrypt) (auth := Fixture.demoAuth)
       (AuthorizeDto.mk "carol" "s3cret") Fixture.twoStore
     <> post_auth (bcrypt := Fixture.demoBcrypt) (auth := Fixture.demoAuth)
          (AuthorizeDto.mk "alice" "guess") Fixture.twoStore.
Proof.
  split; [reflexivity|]. split; [reflexivity|].
  intros E. vm_compute in E. discriminate E.
Qed.

End AuthContollerFacts.

(* ------------------------------------------------------------------ *)
(** * Further properties of UserService *)

Module UserServiceMore.
Import Mongoose UserSchema UserService Vocabulary Laws.
Import MongooseFacts UserServiceFacts.

Lemma findById_absent (id : nat) (c : list User) :
  findById id c = None <-> forall u, In u c -> _id u <> id.
Proof.
  unfold findById. split.
  - intros E u Hin Hid.
    destruct (List.find (fun x => Nat.eqb (_id x) id) c) as [v|] eqn:F;
      [discriminate|].
    apply (find_none _ _ F) in Hin. simpl in Hin.
    apply Nat.eqb_neq in Hin. contradiction.
  - intros Hno.
    destruct (List.find (fun x => Nat.eqb (_id x) id) c) as [v|] eqn:F;
      [|reflexivity].
    destruct (find_some _ _ F) as [Hin Hid]. apply Nat.eqb_eq in Hid.
    destruct (Hno v Hin Hid).
Qed.

(** [findByUserId], [updateProfile] and [changePassword], case by case. *)
Lemma findByUserId_run (id : nat) (s : Store) :
  findByUserId id s =
    match outage s with
    | Some m => (Throw (MongoError m), s)
    | None =>
        match findById id (users s) with
        | Some d => (Return d, s)
        | None => (Throw (Error "User does not exist."), s)
        end
    end.
Proof.
  unfold findByUserId, exec. run_js.
  destruct (outage s); [reflexivity|].
  destruct (findById id (users s)); reflexivity.
Qed.

Lemma updateProfile_run (id : nat) (dto : UpdateProfileDto.t) (s : Store) :
  updateProfile id dto s =
    match outage s with
    | Some m => (Throw (MongoError m), s)
    | None =>
        match findById id (users s) with
        | None => (Throw (Error "User does not exist."), s)
        | Some d =>
            if profileDiffers dto (doc d)
            then if usernameClash dto (doc d) (users s)
                 then (Throw (MongoError duplicateKey), s)
                 else (Return {| updated := true |},
                       replaceOne (applyProfile dto (doc d)) s)
            else (Return {| updated := false |}, s)
        end
    end.
Proof.
  destruct (outage s) as [m|] eqn:Hup.
  - unfold updateProfile. unfold bind at 1.
    rewrite findByUserId_run, Hup. reflexivity.
  - destruct (findById id (users s)) as [d|] eqn:Hf.
    + destruct (findById_hydrated id (users s) d Hf) as [u ->].
      apply (updateProfile_loaded id dto s u Hup Hf).
    + unfold updateProfile. unfold bind at 1.
      rewrite findByUserId_run, Hup, Hf. reflexivity.
Qed.

Section WithBcrypt.
Context {bcrypt : Bcrypt}.

Lemma changePassword_run (salt id : nat) (dto : ChangePasswordDto.t)
  (s : Store) :
  changePassword salt id dto s =
    match outage s with
    | Some m => (Throw (MongoError m), s)
    | None =>
        match findById id (users s) with
        | None => (Throw (Error "User does not exist."), s)
        | Some d =>
            if compare (ChangePasswordDto.password dto) (password (doc d))
            then (Return {| updated := true |},
                  if String.eqb
                       (hash salt (ChangePasswordDto.newPassword dto))
                       (password (doc d))
                  then s
                  else replaceOne
                         (rehashed salt (ChangePasswordDto.newPassword dto)
                            (doc d)) s)
            else (Throw (Error "Incorrect password."), s)
        end
    end.
Proof.
  destruct (outage s) as [m|] eqn:Hup.
  - unfold changePassword. unfold bind at 1.
    rewrite findByUserId_run, Hup. reflexivity.
  - destruct (findById id (users s)) as [d|] eqn:Hf.
    + destruct (findById_hydrated id (users s) d Hf) as [u ->].
      apply (changePassword_loaded salt id dto s u Hup Hf).
    + unfold changePassword. unfold bind at 1.
      rewrite findByUserId_run, Hup, Hf. reflexivity.
Qed.

Lemma verify_run (dto : AuthorizeDto.t) (s : Store) :
  verify dto s =
    match outage s with
    | Some m => (Throw (MongoError m), s)
    | None =>
        match find (AuthorizeDto.username dto) (users s) with
        | [] => (Throw (Error "User not found."), s)
        | d :: _ =>
            if compare (AuthorizeDto.password dto) (password (doc d))
            then (Return d, s)
            else (Throw (Error "Incorrect password."), s)
        end
    end.
Proof.
  unfold verify, comparePassword, exec, limit. run_js.
  destruct (outage s); [reflexivity|].
  destruct (find (AuthorizeDto.username dto) (users s)) as [|d l];
    [reflexivity|].
  simpl. destruct (compare _ _); reflexivity.
Qed.

End WithBcrypt.

Section ByRequestId.
Context {bcrypt : Bcrypt} {cast : RequestId.ObjectIdCast}.

(** X1: [findByUserId] on the identifier string of a request.  A string
    that is no ObjectId is rejected with the cast error of the library.
    For one that is, and a store that answers, the method returns an
    account of the store that carries the identifier if there is one,
    and fails with "User does not exist." if there is none.  In no case
    does it change the store. *)
Theorem findByUserId_found_or_absent (id : string) (s : Store) :
  (RequestId.castObjectId id = None ->
     RequestId.findByUserId id s
     = (Throw (MongoError RequestId.castFailed), s))
  /\ (forall oid,
        RequestId.castObjectId id = Some oid ->
        outage s = None ->
        ((exists u, In u (users s) /\ _id u = oid) ->
           exists u, In u (users s) /\ _id u = oid
                     /\ RequestId.findByUserId id s
                        = (Return (hydrate u), s))
        /\ ((forall u, In u (users s) -> _id u <> oid) ->
            RequestId.findByUserId id s
            = (Throw (Error "User does not exist."), s)))
  /\ snd (RequestId.findByUserId id s) = s.
Proof.
  unfold RequestId.findByUserId, RequestId.withObjectId.
  destruct (RequestId.castObjectId id) as [o|].
  - split; [discriminate|]. split.
    + intros oid E Hup. injection E as <-.
      rewrite findByUserId_run, Hup. split.
      * intros [v [Hin Hid]].
        destruct (findById o (users s)) as [d|] eqn:Hf.
        -- destruct (findById_hydrated o (users s) d Hf) as [u ->].
           destruct (findById_found o (users s) u Hf) as [Hu [Hi _]].
           exists u. repeat split; trivial.
        -- destruct (proj1 (findById_absent o (users s)) Hf v Hin Hid).
      * intros Hno. rewrite (proj2 (findById_absent o (users s)) Hno).
        reflexivity.
    + apply findByUserId_read_only.
  - split; [reflexivity|]. split; [discriminate | reflexivity].
Qed.

(** X2: [updateProfile] and [changePassword] on an identifier that no
    account carries.  On a string that is no ObjectId both fail with the
    cast error of the library; on an ObjectId that no account carries,
    the store answering, both fail with "User does not exist.".  Either
    way the store is left as it was, whatever the request holds. *)
Theorem mutators_unknown_id_fail (salt : nat) (id : string)
  (profile : UpdateProfileDto.t) (change : ChangePasswordDto.t)
  (s : Store) :
  (RequestId.castObjectId id = None ->
     RequestId.updateProfile id profile s
     = (Throw (MongoError RequestId.castFailed), s)
     /\ RequestId.changePassword salt id change s
        = (Throw (MongoError RequestId.castFailed), s))
  /\ (forall oid,
        RequestId.castObjectId id = Some oid ->
        outage s = None ->
        (forall u, In u (users s) -> _id u <> oid) ->
        RequestId.updateProfile id profile s
        = (Throw (Error "User does not exist."), s)
        /\ RequestId.changePassword salt id change s
           = (Throw (Error "User does not exist."), s)).
Proof.
  unfold RequestId.updateProfile, RequestId.changePassword,
    RequestId.withObjectId.
  destruct (RequestId.castObjectId id) as [o|].
  - split; [discriminate|].
    intros oid E Hup Hno. injection E as <-.
    apply (proj2 (findById_absent o (users s))) in Hno.
    rewrite updateProfile_run, changePassword_run, Hup, Hno.
    split; reflexivity.
  - split; [split; reflexivity | discriminate].
Qed.

End ByRequestId.

Lemma findByUserId_found_or_absent_witness :
  RequestId.findByUserId (cast := FixtureMore.demoCast) "7"
    Fixture.twoStore
  = (Throw (Error "User does not exist."), Fixture.twoStore)
  /\ RequestId.findByUserId (cast := FixtureMore.demoCast) "seven"
       Fixture.twoStore
     = (Throw (MongoError RequestId.castFailed), Fixture.twoStore).
Proof.
  split.
  - apply (findByUserId_found_or_absent (cast := FixtureMore.demoCast) "7"
             Fixture.twoStore) with (oid := 7);
      [reflexivity | reflexivity |].
    intros u [<- | [<- | []]]; simpl; lia.
  - apply (findByUserId_found_or_absent (cast := FixtureMore.demoCast)
             "seven" Fixture.twoStore).
    reflexivity.
Defined.

Lemma checkIfExists_run (name : string) (s : Store) :
  checkIfExists name s =
    match outage s with
    | Some m => (Throw (MongoError m), s)
    | None => (Return {| existing := usernameTaken name (users s) |}, s)
    end.
Proof.
  unfold checkIfExists, exec. run_js.
  destruct (outage s); [reflexivity|].
  rewrite limit_one_length.
  destruct (usernameTaken name (users s)); reflexivity.
Qed.

Lemma usernameTaken_fresh (name : string) (c : list User) :
  usernameTaken name c = false <-> forall u, In u c -> username u <> name.
Proof.
  split.
  - intros E u Hin Hn.
    assert (T : usernameTaken name c = true)
      by (apply usernameTaken_spec; now exists u).
    congruence.
  - intros Hno. destruct (usernameTaken name c) eqn:T; [|reflexivity].
    apply usernameTaken_spec in T. destruct T as [u [Hin Hn]].
    destruct (Hno u Hin Hn).
Qed.

Section Mutators.
Context {bcrypt : Bcrypt}.


(** X4: an operation that throws has written nothing: after a failed
    [create], [updateProfile] or [changePassword] the store is the one
    before the call. *)
Theorem failed_mutation_keeps_store (salt id : nat) (reg : CreateDto.t)
  (profile : UpdateProfileDto.t) (change : ChangePasswordDto.t)
  (s : Store) :
  (forall err, fst (create salt reg s) = Throw err ->
               snd (create salt reg s) = s)
  /\ (forall err, fst (updateProfile id profile s) = Throw err ->
                  snd (updateProfile id profile s) = s)
  /\ (forall err, fst (changePassword salt id change s) = Throw err ->
                  snd (changePassword salt id change s) = s).
Proof.
  rewrite create_run, save_new, updateProfile_run, changePassword_run.
  split; [|split]; intros err.
  - destruct (outage s); [reflexivity|].
    destruct (usernameTaken _ _); [reflexivity|]. discriminate.
  - destruct (outage s); [reflexivity|].
    destruct (findById id (users s)) as [d|]; [|reflexivity].
    destruct (profileDiffers profile (doc d)); [|reflexivity].
    destruct (usernameClash profile (doc d) (users s)); [reflexivity|].
    discriminate.
  - destruct (outage s); [reflexivity|].
    destruct (findById id (users s)) as [d|]; [|reflexivity].
    destruct (compare _ _); [discriminate | reflexivity].
Qed.

(** X5: a [create] that returns has issued exactly one write and added
    exactly one account; [updateProfile] and [changePassword] issue at
    most one write, whatever their outcome, and never change the number
    of accounts. *)
Theorem mutation_writes_at_most_once (salt id : nat) (reg : CreateDto.t)
  (profile : UpdateProfileDto.t) (change : ChangePasswordDto.t)
  (s : Store) :
  (forall d s', create salt reg s = (Return d, s') ->
                writes s' = S (writes s)
                /\ List.length (users s') = S (List.length (users s)))
  /\ (forall o s', changePassword salt id change s = (o, s') ->
                   (writes s' = writes s \/ writes s' = S (writes s))
                   /\ List.length (users s') = List.length (users s))
  /\ (forall o s', updateProfile id profile s = (o, s') ->
                   (writes s' = writes s \/ writes s' = S (writes s))
                   /\ List.length (users s') = List.length (users s)).
Proof.
  rewrite create_run, save_new, updateProfile_run, changePassword_run.
  split; [|split].
  - intros d s'. destruct (outage s); [discriminate|].
    destruct (usernameTaken _ _); [discriminate|].
    intros E. injection E as _ <-. simpl.
    rewrite length_app. simpl. split; lia.
  - intros o s'. destruct (outage s).
    { intros E. injection E as _ <-. split; [now left | reflexivity]. }
    destruct (findById id (users s)) as [d|].
    2:{ intros E. injection E as _ <-. split; [now left | reflexivity]. }
    destruct (compare _ _).
    2:{ intros E. injection E as _ <-. split; [now left | reflexivity]. }
    destruct (String.eqb _ (password (doc d))).
    { intros E. injection E as _ <-. split; [now left | reflexivity]. }
    intros E. injection E as _ <-. simpl.
    rewrite updateOne_length. split; [now right | reflexivity].
  - intros o s'. destruct (outage s).
    { intros E. injection E as _ <-. split; [now left | reflexivity]. }
    destruct (findById id (users s)) as [d|].
    2:{ intros E. injection E as _ <-. split; [now left | reflexivity]. }
    destruct (profileDiffers profile (doc d)).
    2:{ intros E. injection E as _ <-. split; [now left | reflexivity]. }
    destruct (usernameClash profile (doc d) (users s)).
    { intros E. injection E as _ <-. split; [now left | reflexivity]. }
    intros E. injection E as _ <-. simpl.
    rewrite updateOne_length. split; [now right | reflexivity].
Qed.

(** X6: when the store answers and no account holds the username of the
    request, [create] succeeds: it returns the new account, which has the
    next identifier of the store and the username, first name and last
    name of the request, and appends it to the collection; a
    [checkIfExists] on that username then reports [existing = true]. *)
Theorem create_fresh_username_succeeds (salt : nat) (dto : CreateDto.t)
  (s : Store) :
  outage s = None ->
  (forall u, In u (users s) -> username u <> CreateDto.username dto) ->
  exists u s',
    create salt dto s = (Return (hydrate u), s')
    /\ _id u = nextId s
    /\ username u = CreateDto.username dto
    /\ firstName u = CreateDto.firstName dto
    /\ lastName u = CreateDto.lastName dto
    /\ users s' = (users s ++ [u])%list
    /\ checkIfExists (CreateDto.username dto) s'
       = (Return {| existing := true |}, s').
Proof.
  intros Hup Hfresh.
  apply (proj2 (usernameTaken_fresh _ _)) in Hfresh.
  exists (registered salt dto (nextId s)),
    (insertOne (registered salt dto (nextId s)) s).
  rewrite create_run, save_new, Hup, Hfresh.
  repeat split.
  rewrite checkIfExists_run. simpl. rewrite Hup.
  assert (T : usernameTaken (CreateDto.username dto)
                (users s ++ [registered salt dto (nextId s)])%list = true).
  { apply usernameTaken_spec. exists (registered salt dto (nextId s)).
    split; [|reflexivity]. apply in_or_app. right. now left. }
  rewrite T. reflexivity.
Qed.

End Mutators.

Lemma mutators_unknown_id_fail_witness :
  (RequestId.updateProfile (cast := FixtureMore.demoCast) "7"
     (UpdateProfileDto.mk "eve" "Eve" "Moneypenny") Fixture.twoStore
   = (Throw (Error "User does not exist."), Fixture.twoStore)
   /\ RequestId.changePassword (bcrypt := Fixture.demoBcrypt)
        (cast := FixtureMore.demoCast) 67 "7"
        (ChangePasswordDto.mk "s3cret" "letmein") Fixture.twoStore
      = (Throw (Error "User does not exist."), Fixture.twoStore))
  /\ (RequestId.updateProfile (cast := FixtureMore.demoCast) "seven"
        (UpdateProfileDto.mk "eve" "Eve" "Moneypenny") Fixture.twoStore
      = (Throw (MongoError RequestId.castFailed), Fixture.twoStore)
      /\ RequestId.changePassword (bcrypt := Fixture.demoBcrypt)
           (cast := FixtureMore.demoCast) 67 "seven"
           (ChangePasswordDto.mk "s3cret" "letmein") Fixture.twoStore
         = (Throw (MongoError RequestId.castFailed), Fixture.twoStore)).
Proof.
  split.
  - apply (mutators_unknown_id_fail (bcrypt := Fixture.demoBcrypt)
             (cast := FixtureMore.demoCast) 67 "7"
             (UpdateProfileDto.mk "eve" "Eve" "Moneypenny")
             (ChangePasswordDto.mk "s3cret" "letmein") Fixture.twoStore)
      with (oid := 7);
      [reflexivity | reflexivity |].
    intros u [<- | [<- | []]]; simpl; lia.
  - apply (mutators_unknown_id_fail (bcrypt := Fixture.demoBcrypt)
             (cast := FixtureMore.demoCast) 67 "seven"
             (UpdateProfileDto.mk "eve" "Eve" "Moneypenny")
             (ChangePasswordDto.mk "s3cret" "letmein") Fixture.twoStore).
    reflexivity.
Defined.


Lemma create_fresh_username_succeeds_witness :
  exists u s',
    create (bcrypt := Fixture.demoBcrypt) 68 FixtureMore.carolDto
      Fixture.twoStore
    = (Return (hydrate u), s')
    /\ _id u = 2
    /\ username u = "carol"
    /\ firstName u = "Carol"
    /\ lastName u = "Danvers"
    /\ users s' = (users Fixture.twoStore ++ [u])%list
    /\ checkIfExists "carol" s' = (Return {| existing := true |}, s').
Proof.
  apply (create_fresh_username_succeeds (bcrypt := Fixture.demoBcrypt) 68
           FixtureMore.carolDto Fixture.twoStore);
    [reflexivity|].
  intros u [<- | [<- | []]]; simpl; discriminate.
Defined.

(** After the write-back of [u'] in place of the account [u] that a
    login under the name of [u] finds, the login finds [u']. *)
Lemma find_after_updateOne (id : nat) (c : list User) (u u' : User)
  (rest : list Document) :
  findById id c = Some (hydrate u) ->
  find (username u) c = hydrate u :: rest ->
  _id u' = id ->
  username u' = username u ->
  exists rest', find (username u) (updateOne u' c) = hydrate u' :: rest'.
Proof.
  intros Hf Hn Hid Hname. revert rest Hf Hn.
  induction c as [|x r IH]; intros rest Hf Hn; [discriminate Hf|].
  destruct (findById_found id (x :: r) u Hf) as [_ [Hu _]].
  unfold findById in Hf. simpl in Hf. simpl. rewrite Hid.
  destruct (Nat.eqb (_id x) id) eqn:E.
  - unfold find. simpl. rewrite Hname, String.eqb_refl. simpl. eauto.
  - unfold find in Hn |- *. simpl in Hn |- *.
    destruct (String.eqb (username x) (username u)) eqn:N.
    + simpl in Hn. injection Hn as Hx _. subst x.
      apply Nat.eqb_neq in E. contradiction.
    + apply (IH rest); [exact Hf | exact Hn].
Qed.

(** When no other account holds the username of [u'], a login under
    that name finds [u'] after its write-back. *)
Lemma find_after_rename (c : list User) (u' : User) :
  isPresent (_id u') c = true ->
  collides u' c = false ->
  exists rest', find (username u') (updateOne u' c) = hydrate u' :: rest'.
Proof.
  induction c as [|x r IH]; intros Hp Hc; [discriminate Hp|].
  simpl in Hp, Hc |- *. apply orb_false_iff in Hc. destruct Hc as [Hx Hr].
  destruct (Nat.eqb (_id x) (_id u')) eqn:E.
  - unfold find. simpl. rewrite String.eqb_refl. simpl. eauto.
  - simpl in Hp, Hx. rewrite andb_true_r in Hx.
    unfold find. simpl. rewrite Hx. apply (IH Hp Hr).
Qed.

(** A write-back leaves the accounts of the other identifiers alone. *)
Lemma findById_other_updateOne (id : nat) (u' : User) (c : list User) :
  _id u' <> id -> findById id (updateOne u' c) = findById id c.
Proof.
  intros Hne. unfold findById. f_equal.
  induction c as [|x r IH]; [reflexivity|]. simpl.
  destruct (Nat.eqb (_id x) (_id u')) eqn:E; simpl.
  - apply Nat.eqb_eq in E.
    destruct (Nat.eqb (_id u') id) eqn:E1;
      [apply Nat.eqb_eq in E1; contradiction|].
    destruct (Nat.eqb (_id x) id) eqn:E2;
      [apply Nat.eqb_eq in E2; congruence | reflexivity].
  - destruct (Nat.eqb (_id x) id); [reflexivity | exact IH].
Qed.

Lemma isPresent_updateOne (id : nat) (u' : User) (c : list User) :
  isPresent id (updateOne u' c) = isPresent id c.
Proof.
  unfold isPresent. induction c as [|x r IH]; [reflexivity|]. simpl.
  destruct (Nat.eqb (_id x) (_id u')) eqn:E; simpl.
  - apply Nat.eqb_eq in E. rewrite E. reflexivity.
  - rewrite IH. reflexivity.
Qed.

Section RoundTrips.
Context {bcrypt : Bcrypt}.

(** X7: register, then log in.  If the comparison accepts a plaintext
    against its own hash, then after a successful [create] a [verify]
    with the username and the password of the registration returns the
    account that [create] returned, in the store that [create] left. *)
Theorem create_then_verify (salt : nat) (dto : CreateDto.t) (s : Store) :
  acceptsOwnHash ->
  outage s = None ->
  (forall u, In u (users s) -> username u <> CreateDto.username dto) ->
  exists d s',
    create salt dto s = (Return d, s')
    /\ verify (AuthorizeDto.mk (CreateDto.username dto)
                 (CreateDto.password dto)) s'
       = (Return d, s').
Proof.
  intros Hacc Hup Hfresh.
  pose proof (proj2 (find_nil _ _) Hfresh) as Hnil.
  apply (proj2 (usernameTaken_fresh _ _)) in Hfresh.
  exists (hydrate (registered salt dto (nextId s))),
    (insertOne (registered salt dto (nextId s)) s).
  rewrite create_run, save_new, Hup, Hfresh.
  split; [reflexivity|].
  rewrite verify_run. simpl. rewrite Hup.
  unfold find in Hnil |- *. rewrite filter_app, map_app.
  apply map_eq_nil in Hnil. rewrite Hnil. simpl.
  rewrite String.eqb_refl. simpl. rewrite Hacc. reflexivity.
Qed.

(** X8: change the password, then log in.  If the comparison accepts a
    plaintext against its own hash, and a login under the name of the
    account [u] finds [u], then after a successful [changePassword] a
    [verify] with that name and the new password succeeds, and returns
    [u] with the new hash. *)
Theorem changePassword_then_verify_new (salt id : nat)
  (dto : ChangePasswordDto.t) (s : Store) (u : User)
  (rest : list Document) :
  acceptsOwnHash ->
  outage s = None ->
  findById id (users s) = Some (hydrate u) ->
  find (username u) (users s) = hydrate u :: rest ->
  compare (ChangePasswordDto.password dto) (password u) = true ->
  exists s',
    changePassword salt id dto s = (Return {| updated := true |}, s')
    /\ verify (AuthorizeDto.mk (username u)
                 (ChangePasswordDto.newPassword dto)) s'
       = (Return
            (hydrate (rehashed salt (ChangePasswordDto.newPassword dto) u)),
          s').
Proof.
  intros Hacc Hup Hf Hn Hc.
  destruct (findById_found id (users s) u Hf) as [_ [Hid _]].
  set (u' := rehashed salt (ChangePasswordDto.newPassword dto) u).
  rewrite changePassword_run, Hup, Hf. simpl. rewrite Hc.
  destruct (String.eqb (hash salt (ChangePasswordDto.newPassword dto))
              (password u)) eqn:E.
  - exists s. split; [reflexivity|].
    unfold u'. rewrite (rehashed_same salt _ u E).
    rewrite verify_run. simpl. rewrite Hup, Hn. simpl.
    apply String.eqb_eq in E. rewrite <- E, Hacc. reflexivity.
  - exists (replaceOne u' s). split; [reflexivity|].
    destruct (find_after_updateOne id (users s) u u' rest Hf Hn Hid
                eq_refl) as [rest' Hn'].
    rewrite verify_run. simpl. rewrite Hup, Hn'. simpl.
    rewrite Hacc. reflexivity.
Qed.

(** X9: the old password stops working.  If the comparison accepts
    nothing but the plaintext a hash was computed from, then after a
    successful [changePassword] to a different password a [verify] with
    the old one fails with "Incorrect password.". *)
Theorem changePassword_then_verify_old (salt id : nat)
  (dto : ChangePasswordDto.t) (s : Store) (u : User)
  (rest : list Document) :
  rejectsOthers ->
  outage s = None ->
  findById id (users s) = Some (hydrate u) ->
  find (username u) (users s) = hydrate u :: rest ->
  compare (ChangePasswordDto.password dto) (password u) = true ->
  ChangePasswordDto.password dto <> ChangePasswordDto.newPassword dto ->
  exists s',
    changePassword salt id dto s = (Return {| updated := true |}, s')
    /\ verify (AuthorizeDto.mk (username u)
                 (ChangePasswordDto.password dto)) s'
       = (Throw (Error "Incorrect password."), s').
Proof.
  intros Hrej Hup Hf Hn Hc Hdiff.
  destruct (findById_found id (users s) u Hf) as [_ [Hid _]].
  set (u' := rehashed salt (ChangePasswordDto.newPassword dto) u).
  rewrite changePassword_run, Hup, Hf. simpl. rewrite Hc.
  destruct (String.eqb (hash salt (ChangePasswordDto.newPassword dto))
              (password u)) eqn:E.
  - exfalso. apply String.eqb_eq in E. rewrite <- E in Hc.
    apply Hrej in Hc. contradiction.
  - exists (replaceOne u' s). split; [reflexivity|].
    destruct (find_after_updateOne id (users s) u u' rest Hf Hn Hid
                eq_refl) as [rest' Hn'].
    rewrite verify_run. simpl. rewrite Hup, Hn'. simpl.
    destruct (compare (ChangePasswordDto.password dto)
                (hash salt (ChangePasswordDto.newPassword dto))) eqn:C;
      [|reflexivity].
    apply Hrej in C. contradiction.
Qed.

(** X10: a profile update keeps the login working.  When
    [updateProfile] changes an account and no other account holds the
    username of the request, a [verify] under that username with the
    password that matched before returns the updated account: the
    password hash is not touched by the update. *)
Theorem updateProfile_then_verify (id : nat) (dto : UpdateProfileDto.t)
  (pw : string) (s : Store) (u : User) :
  outage s = None ->
  findById id (users s) = Some (hydrate u) ->
  profileDiffers dto u = true ->
  collides (applyProfile dto u) (users s) = false ->
  compare pw (password u) = true ->
  exists s',
    updateProfile id dto s = (Return {| updated := true |}, s')
    /\ verify (AuthorizeDto.mk (UpdateProfileDto.username dto) pw) s'
       = (Return (hydrate (applyProfile dto u)), s').
Proof.
  intros Hup Hf Hd Hcol Hc.
  destruct (findById_found id (users s) u Hf) as [_ [Hid Hp]].
  exists (replaceOne (applyProfile dto u) s).
  rewrite updateProfile_run, Hup, Hf. simpl. rewrite Hd.
  unfold usernameClash. rewrite Hcol, andb_false_r.
  split; [reflexivity|].
  assert (Hp' : isPresent (_id (applyProfile dto u)) (users s) = true)
    by (rewrite applyProfile_id, Hid; exact Hp).
  destruct (find_after_rename (users s) (applyProfile dto u) Hp' Hcol)
    as [rest' Hn'].
  rewrite verify_run. simpl. rewrite Hup.
  change (UpdateProfileDto.username dto)
    with (username (applyProfile dto u)).
  rewrite Hn'. simpl. rewrite Hc. reflexivity.
Qed.

(** X11: [updateProfile] and [changePassword] on one identifier leave
    the account found under any other identifier as it was, whatever
    their outcome. *)
Theorem mutators_keep_other_accounts (salt id other : nat)
  (profile : UpdateProfileDto.t) (change : ChangePasswordDto.t)
  (s : Store) :
  other <> id ->
  findById other (users (snd (updateProfile id profile s)))
  = findById other (users s)
  /\ findById other (users (snd (changePassword salt id change s)))
     = findById other (users s).
Proof.
  intros Hne.
  rewrite updateProfile_run, changePassword_run.
  destruct (outage s); [split; reflexivity|].
  destruct (findById id (users s)) as [d|] eqn:Hf; [|split; reflexivity].
  destruct (findById_hydrated id (users s) d Hf) as [u ->].
  destruct (findById_found id (users s) u Hf) as [_ [Hid _]].
  simpl. split.
  - destruct (profileDiffers profile u); [|reflexivity].
    destruct (usernameClash profile u (users s)); [reflexivity|].
    simpl. apply findById_other_updateOne.
    rewrite applyProfile_id, Hid. congruence.
  - destruct (compare _ _); [|reflexivity].
    destruct (String.eqb _ (password u)); [reflexivity|].
    simpl. apply findById_other_updateOne.
    unfold rehashed. simpl. rewrite Hid. congruence.
Qed.

(** X12: no operation deletes an account: after any step of the system,
    every identifier that was present in the store is still present,
    and the collection has not shrunk. *)
Theorem step_never_deletes (s s' : Store) (id : nat) :
  step s s' ->
  (isPresent id (users s) = true -> isPresent id (users s') = true)
  /\ List.length (users s) <= List.length (users s').
Proof.
  intros St. destruct St.
  - rewrite create_run, save_new.
    destruct (outage s); [split; auto|].
    destruct (usernameTaken _ _); [split; auto|].
    simpl. split.
    + unfold isPresent. rewrite existsb_app. intros ->. reflexivity.
    + rewrite length_app. simpl. lia.
  - rewrite verify_read_only. split; auto.
  - destruct (updateProfile_store id0 dto s) as [-> | [u [_ ->]]];
      [split; auto|].
    simpl. rewrite isPresent_updateOne, updateOne_length. split; auto.
  - rewrite checkIfExists_read_only. split; auto.
  - destruct (changePassword_store salt id0 dto s) as [-> | [u [_ ->]]];
      [split; auto|].
    simpl. rewrite isPresent_updateOne, updateOne_length. split; auto.
  - simpl. split; auto.
Qed.

End RoundTrips.

Lemma demo_acceptsOwnHash : acceptsOwnHash (bcrypt := Fixture.demoBcrypt).
Proof.
  intros salt plain. simpl. unfold Fixture.demoCompare, Fixture.demoHash.
  rewrite Ascii.ascii_nat_embedding. simpl.
  rewrite Ascii.eqb_refl. apply String.eqb_refl.
Qed.

Lemma demo_rejectsOthers : rejectsOthers (bcrypt := Fixture.demoBcrypt).
Proof.
  intros salt plain candidate. simpl.
  unfold Fixture.demoCompare, Fixture.demoHash.
  rewrite Ascii.ascii_nat_embedding. simpl.
  rewrite Ascii.eqb_refl. intros E.
  apply String.eqb_eq in E. symmetry. exact E.
Qed.

Lemma create_then_verify_witness :
  exists d s',
    create (bcrypt := Fixture.demoBcrypt) 68 FixtureMore.carolDto
      Fixture.twoStore
    = (Return d, s')
    /\ verify (bcrypt := Fixture.demoBcrypt)
         (AuthorizeDto.mk "carol" "pa55word") s'
       = (Return d, s').
Proof.
  apply (create_then_verify (bcrypt := Fixture.demoBcrypt) 68
           FixtureMore.carolDto Fixture.twoStore demo_acceptsOwnHash);
    [reflexivity|].
  intros u [<- | [<- | []]]; simpl; discriminate.
Defined.

Lemma changePassword_then_verify_new_witness :
  exists s',
    changePassword (bcrypt := Fixture.demoBcrypt) 67 0
      (ChangePasswordDto.mk "s3cret" "letmein") Fixture.twoStore
    = (Return {| updated := true |}, s')
    /\ verify (bcrypt := Fixture.demoBcrypt)
         (AuthorizeDto.mk "alice" "letmein") s'
       = (Return
            (hydrate
               (rehashed (bcrypt := Fixture.demoBcrypt) 67 "letmein"
                  Fixture.alice)), s').
Proof.
  apply (changePassword_then_verify_new (bcrypt := Fixture.demoBcrypt) 67 0
           (ChangePasswordDto.mk "s3cret" "letmein") Fixture.twoStore
           Fixture.alice [] demo_acceptsOwnHash);
    reflexivity.
Defined.

Lemma changePassword_then_verify_old_witness :
  exists s',
    changePassword (bcrypt := Fixture.demoBcrypt) 67 0
      (ChangePasswordDto.mk "s3cret" "letmein") Fixture.twoStore
    = (Return {| updated := true |}, s')
    /\ verify (bcrypt := Fixture.demoBcrypt)
         (AuthorizeDto.mk "alice" "s3cret") s'
       = (Throw (Error "Incorrect password."), s').
Proof.
  apply (changePassword_then_verify_old (bcrypt := Fixture.demoBcrypt) 67 0
           (ChangePasswordDto.mk "s3cret" "letmein") Fixture.twoStore
           Fixture.alice [] demo_rejectsOthers);
    try reflexivity.
  simpl. discriminate.
Defined.

Lemma updateProfile_then_verify_witness :
  exists s',
    updateProfile 0 (UpdateProfileDto.mk "alice2" "Alice" "Liddell")
      Fixture.twoStore
    = (Return {| updated := true |}, s')
    /\ verify (bcrypt := Fixture.demoBcrypt)
         (AuthorizeDto.mk "alice2" "s3cret") s'
       = (Return
            (hydrate
               (applyProfile (UpdateProfileDto.mk "alice2" "Alice" "Liddell")
                  Fixture.alice)), s').
Proof.
  apply (updateProfile_then_verify (bcrypt := Fixture.demoBcrypt) 0
           (UpdateProfileDto.mk "alice2" "Alice" "Liddell") "s3cret"
           Fixture.twoStore Fixture.alice);
    reflexivity.
Defined.

Lemma mutators_keep_other_accounts_witness :
  findById 1
    (users (snd (updateProfile 0
                   (UpdateProfileDto.mk "alice2" "Alice" "Liddell")
                   Fixture.twoStore)))
  = findById 1 (users Fixture.twoStore)
  /\ findById 1
       (users (snd (changePassword (bcrypt := Fixture.demoBcrypt) 67 0
                      (ChangePasswordDto.mk "s3cret" "letmein")
                      Fixture.twoStore)))
     = findById 1 (users Fixture.twoStore).
Proof.
  apply (mutators_keep_other_accounts (bcrypt := Fixture.demoBcrypt) 67 0 1
           (UpdateProfileDto.mk "alice2" "Alice" "Liddell")
           (ChangePasswordDto.mk "s3cret" "letmein") Fixture.twoStore).
  lia.
Defined.

Lemma step_never_deletes_witness :
  (isPresent 0 (users Fixture.aliceStore) = true ->
   isPresent 0 (users Fixture.twoStore) = true)
  /\ List.length (users Fixture.aliceStore)
     <= List.length (users Fixture.twoStore).
Proof.
  apply (step_never_deletes (bcrypt := Fixture.demoBcrypt)
           Fixture.aliceStore Fixture.twoStore 0).
  exact (step_create (bcrypt := Fixture.demoBcrypt) 66 Fixture.bobDto
           Fixture.aliceStore).
Defined.

(* The keys of the collection. *)

Lemma map_id_updateOne (u : User) (c : list User) :
  List.map _id (updateOne u c) = List.map _id c.
Proof.
  induction c as [|x r IH]; [reflexivity|]. simpl.
  destruct (Nat.eqb (_id x) (_id u)) eqn:E; simpl.
  - apply Nat.eqb_eq in E. rewrite E. reflexivity.
  - rewrite IH. reflexivity.
Qed.

Lemma In_updateOne (u y : User) (c : list User) :
  In y (updateOne u c) -> y = u \/ In y c.
Proof.
  induction c as [|x r IH]; simpl; [intros []|].
  destruct (Nat.eqb (_id x) (_id u)); simpl.
  - intros [<- | Hin]; [now left | right; now right].
  - intros [<- | Hin]; [right; now left|].
    destruct (IH Hin) as [-> | Hr]; [now left | right; now right].
Qed.

Lemma collides_false (u : User) (c : list User) :
  collides u c = false ->
  forall y, In y c -> username y = username u -> _id y = _id u.
Proof.
  intros Hc y Hin Hn.
  destruct (Nat.eqb (_id y) (_id u)) eqn:E; [now apply Nat.eqb_eq|].
  assert (T : collides u c = true).
  { unfold collides. apply existsb_exists. exists y. split; [exact Hin|].
    rewrite E. simpl. rewrite andb_true_r. now apply String.eqb_eq. }
  congruence.
Qed.

Lemma NoDup_map_eq {A B} (f : A -> B) (l : list A) (x y : A) :
  NoDup (List.map f l) -> In x l -> In y l -> f x = f y -> x = y.
Proof.
  induction l as [|a r IH]; simpl; [intros _ []|].
  intros N Hx Hy E. inversion N as [|? ? Hnotin Nr]; subst.
  destruct Hx as [-> | Hx]; destruct Hy as [-> | Hy]; trivial.
  - exfalso. apply Hnotin. rewrite E. now apply in_map.
  - exfalso. apply Hnotin. rewrite <- E. now apply in_map.
  - now apply IH.
Qed.

(** An account that keeps its name collides with nobody. *)
Lemma collides_same_name (u u' : User) (c : list User) :
  NoDup (List.map username c) ->
  In u c ->
  username u' = username u ->
  _id u' = _id u ->
  collides u' c = false.
Proof.
  intros N Hin Hn Hid.
  destruct (collides u' c) eqn:C; [|reflexivity].
  unfold collides in C. apply existsb_exists in C.
  destruct C as [x [Hx T]]. apply andb_true_iff in T.
  destruct T as [Tn Ti]. apply String.eqb_eq in Tn.
  apply negb_true_iff, Nat.eqb_neq in Ti.
  assert (x = u) by (apply (NoDup_map_eq username c); congruence).
  subst x. congruence.
Qed.

Lemma NoDup_username_updateOne (u' : User) (c : list User) :
  NoDup (List.map _id c) ->
  NoDup (List.map username c) ->
  collides u' c = false ->
  NoDup (List.map username (updateOne u' c)).
Proof.
  induction c as [|x r IH]; simpl; intros Ni Nn Hc; [constructor|].
  inversion Ni as [|? ? Hi Nir]; inversion Nn as [|? ? Hn Nnr]; subst.
  apply orb_false_iff in Hc. destruct Hc as [Hx Hr].
  destruct (Nat.eqb (_id x) (_id u')) eqn:E; simpl.
  - apply Nat.eqb_eq in E. constructor; [|exact Nnr].
    intros Hin. apply in_map_iff in Hin. destruct Hin as [y [Hy Hyin]].
    apply Hi. rewrite E, <- (collides_false u' r Hr y Hyin Hy).
    now apply in_map.
  - simpl in Hx. rewrite andb_true_r in Hx.
    constructor; [|now apply IH].
    intros Hin. apply in_map_iff in Hin. destruct Hin as [y [Hy Hyin]].
    destruct (In_updateOne u' y r Hyin) as [-> | Hyr].
    + apply String.eqb_eq in Hy. rewrite String.eqb_sym in Hx. congruence.
    + apply Hn. rewrite <- Hy. now apply in_map.
Qed.

Lemma replaceOne_wellKeyed (u u' : User) (s : Store) :
  wellKeyed s ->
  In u (users s) ->
  _id u' = _id u ->
  collides u' (users s) = false ->
  wellKeyed (replaceOne u' s).
Proof.
  intros [Ni [Nn Lt]] Hin Hid Hc. unfold wellKeyed. simpl.
  rewrite map_id_updateOne. split; [exact Ni|]. split.
  - now apply NoDup_username_updateOne.
  - apply updateOne_Forall; [|exact Lt].
    rewrite Forall_forall in Lt. rewrite Hid. now apply Lt.
Qed.

Section Keys.
Context {bcrypt : Bcrypt}.

Lemma step_wellKeyed (s s' : Store) :
  step s s' -> wellKeyed s -> wellKeyed s'.
Proof.
  intros St W. destruct St.
  - rewrite create_run, save_new.
    destruct (outage s); [exact W|].
    destruct (usernameTaken (CreateDto.username dto) (users s)) eqn:T;
      [exact W|].
    destruct W as [Ni [Nn Lt]]. unfold wellKeyed. simpl.
    rewrite !map_app. simpl. rewrite Forall_forall in Lt.
    split; [|split].
    + apply NoDup_app; [exact Ni | repeat constructor; intros [] |].
      intros a Ha [<- | []]. apply in_map_iff in Ha.
      destruct Ha as [y [Hy Hyin]]. specialize (Lt y Hyin). lia.
    + apply NoDup_app; [exact Nn | repeat constructor; intros [] |].
      intros a Ha [<- | []]. apply in_map_iff in Ha.
      destruct Ha as [y [Hy Hyin]].
      apply (proj1 (usernameTaken_fresh _ _) T y Hyin Hy).
    + apply Forall_app. split.
      * apply Forall_forall. intros y Hy. specialize (Lt y Hy). lia.
      * repeat constructor.
  - now rewrite verify_read_only.
  - rewrite updateProfile_run.
    destruct (outage s); [exact W|].
    destruct (findById id (users s)) as [d|] eqn:Hf; [|exact W].
    destruct (findById_hydrated id (users s) d Hf) as [u ->].
    destruct (findById_found id (users s) u Hf) as [Hin _]. simpl.
    destruct (profileDiffers dto u); [|exact W].
    destruct (usernameClash dto u (users s)) eqn:C; [exact W|].
    simpl. apply (replaceOne_wellKeyed u); trivial.
    unfold usernameClash in C. apply andb_false_iff in C.
    destruct C as [C | C]; [|exact C].
    apply negb_false_iff, String.eqb_eq in C.
    apply (collides_same_name u); trivial. apply W.
  - now rewrite checkIfExists_read_only.
  - rewrite changePassword_run.
    destruct (outage s); [exact W|].
    destruct (findById id (users s)) as [d|] eqn:Hf; [|exact W].
    destruct (findById_hydrated id (users s) d Hf) as [u ->].
    destruct (findById_found id (users s) u Hf) as [Hin _]. simpl.
    destruct (compare _ _); [|exact W].
    destruct (String.eqb _ (password u)); [exact W|].
    simpl. apply (replaceOne_wellKeyed u); trivial.
    apply (collides_same_name u); trivial. apply W.
  - exact W.
Qed.

(** X13: in every store reachable from the empty one, identifiers and
    usernames are keys: no two accounts share an identifier or a
    username, every identifier is below the next one to hand out, and
    two accounts of the store with the same username are the same
    account. *)
Theorem reachable_wellKeyed (s : Store) :
  reachable s ->
  wellKeyed s
  /\ (forall u v, In u (users s) -> In v (users s) ->
                  username u = username v -> u = v).
Proof.
  intros R.
  assert (W : wellKeyed s).
  { induction R as [|s s' _ IH St].
    - repeat split; constructor.
    - exact (step_wellKeyed s s' St IH). }
  split; [exact W|].
  intros u v Hu Hv E.
  apply (NoDup_map_eq username (users s)); trivial. apply W.
Qed.

End Keys.

Lemma reachable_wellKeyed_witness :
  wellKeyed Fixture.twoStore
  /\ (forall u v, In u (users Fixture.twoStore) ->
                  In v (users Fixture.twoStore) ->
                  username u = username v -> u = v).
Proof.
  apply (reachable_wellKeyed (bcrypt := Fixture.demoBcrypt)
           Fixture.twoStore).
  exact (reachable_step (bcrypt := Fixture.demoBcrypt)
           Fixture.aliceStore Fixture.twoStore
           (reachable_step (bcrypt := Fixture.demoBcrypt)
              emptyStore Fixture.aliceStore
              (reachable_empty (bcrypt := Fixture.demoBcrypt))
              (step_create (bcrypt := Fixture.demoBcrypt) 65
                 Fixture.aliceDto emptyStore))
           (step_create (bcrypt := Fixture.demoBcrypt) 66 Fixture.bobDto
              Fixture.aliceStore)).
Defined.

Section VerifyOutcomes.
Context {bcrypt : Bcrypt}.

(** X20: when the store answers, [verify] fails with "User not found."
    exactly when no account has the username, whatever the password;
    and an account it returns is one of the store, has the username of
    the request, and its hash matched the password of the request. *)
Theorem verify_outcomes (dto : AuthorizeDto.t) (s : Store) :
  outage s = None ->
  (verify dto s = (Throw (Error "User not found."), s)
   <-> forall u, In u (users s) -> username u <> AuthorizeDto.username dto)
  /\ (forall d s',
        verify dto s = (Return d, s') ->
        In (doc d) (users s)
        /\ username (doc d) = AuthorizeDto.username dto
        /\ compare (AuthorizeDto.password dto) (password (doc d)) = true).
Proof.
  intros Hup. rewrite verify_run, Hup.
  rewrite <- (find_nil (AuthorizeDto.username dto) (users s)).
  destruct (find (AuthorizeDto.username dto) (users s)) as [|d l] eqn:F.
  - split; [split; reflexivity|]. intros d s' E. discriminate E.
  - assert (Hd : exists u, d = hydrate u).
    { unfold find in F. destruct (filter _ (users s)) as [|u r];
        [discriminate F|]. injection F as <- _. now exists u. }
    destruct Hd as [u ->].
    destruct (find_found _ _ _ _ F) as [Hin Hn]. simpl.
    destruct (compare (AuthorizeDto.password dto) (password u)) eqn:C.
    + split; [split; intros E; discriminate E|].
      intros d s' E. injection E as <- _. simpl. auto.
    + split; [split; intros E; discriminate E|].
      intros d s' E. discriminate E.
Qed.

End VerifyOutcomes.

Lemma verify_outcomes_witness :
  verify (bcrypt := Fixture.demoBcrypt) (AuthorizeDto.mk "carol" "s3cret")
    Fixture.twoStore
  = (Throw (Error "User not found."), Fixture.twoStore).
Proof.
  apply (verify_outcomes (bcrypt := Fixture.demoBcrypt)
           (AuthorizeDto.mk "carol" "s3cret") Fixture.twoStore);
    [reflexivity|].
  intros u [<- | [<- | []]]; simpl; discriminate.
Defined.

End UserServiceMore.

(* ------------------------------------------------------------------ *)
(** * Further properties of AuthContoller *)

Module AuthContollerMore.
Import Mongoose UserService AuthContoller AuthRoutes Vocabulary.
Import MongooseFacts UserServiceFacts UserServiceMore.

Section WithServices.
Context {bcrypt : Bcrypt} {auth : AuthService}.

(** The three handlers, in terms of the service calls they wrap. *)
Lemma new_run (salt : nat) (dto : CreateDto.t) (s : Store) :
  new salt dto s =
    match create salt dto s with
    | (Return user, s') =>
        match createToken (doc user) with
        | Return token => (Return token, s')
        | Throw err => (Throw (BadRequestException (message err)), s')
        end
    | (Throw err, s') => (Throw (BadRequestException (message err)), s')
    end.
Proof.
  unfold new, authService_create, try_catch, bind, ret, throw.
  destruct (create salt dto s) as [[user|err] s']; [|reflexivity].
  destruct (createToken (doc user)); reflexivity.
Qed.

Lemma authorize_run (dto : AuthorizeDto.t) (s : Store) :
  authorize dto s =
    match verify dto s with
    | (Return user, s') =>
        match createToken (doc user) with
        | Return token => (Return token, s')
        | Throw err => (Throw (BadRequestException (message err)), s')
        end
    | (Throw err, s') => (Throw (BadRequestException (message err)), s')
    end.
Proof.
  unfold authorize, authService_create, try_catch, bind, ret, throw.
  destruct (verify dto s) as [[user|err] s']; [|reflexivity].
  destruct (createToken (doc user)); reflexivity.
Qed.

Lemma controller_checkIfExists_run (name : string) (s : Store) :
  AuthContoller.checkIfExists name s =
    match UserService.checkIfExists name s with
    | (Return r, s') => (Return r, s')
    | (Throw err, s') => (Throw (BadRequestException (message err)), s')
    end.
Proof.
  unfold AuthContoller.checkIfExists, try_catch, bind, ret, throw.
  destruct (UserService.checkIfExists name s) as [[r|err] s']; reflexivity.
Qed.

(** X14: whatever goes wrong inside a handler, the service, the store or
    the token service, the route answers 400: the status of a response
    is the success code of the route or 400, never 500. *)
Theorem routes_answer_success_or_400 (salt : nat) (reg : CreateDto.t)
  (login : AuthorizeDto.t) (name : string) (s : Store) :
  (status (post_auth_new salt reg s) = 201
   \/ status (post_auth_new salt reg s) = 400)
  /\ (status (post_auth login s) = 200
      \/ status (post_auth login s) = 400)
  /\ (status (post_auth_exists name s) = 200
      \/ status (post_auth_exists name s) = 400).
Proof.
  unfold post_auth_new, post_auth, post_auth_exists.
  rewrite new_run, authorize_run, controller_checkIfExists_run.
  split; [|split].
  - destruct (create salt reg s) as [[user|err] s']; [|now right].
    destruct (createToken (doc user)); [now left | now right].
  - destruct (verify login s) as [[user|err] s']; [|now right].
    destruct (createToken (doc user)); [now left | now right].
  - destruct (UserService.checkIfExists name s) as [[r|err] s'];
      [now left | now right].
Qed.

(** X15: a registration under a fresh username while the store answers
    and the token service delivers is answered 201 with the token made
    for the new account, and the account is in the store afterwards. *)
Theorem post_auth_new_created (salt : nat) (dto : CreateDto.t) (s : Store)
  (token : AuthTokenResult) :
  outage s = None ->
  (forall u, In u (users s) -> username u <> CreateDto.username dto) ->
  createToken (registered salt dto (nextId s)) = Return token ->
  post_auth_new salt dto s = {| status := 201; body := Json token |}
  /\ users (snd (new salt dto s))
     = (users s ++ [registered salt dto (nextId s)])%list.
Proof.
  intros Hup Hfresh Htok.
  apply (proj2 (usernameTaken_fresh _ _)) in Hfresh.
  unfold post_auth_new.
  rewrite new_run, create_run, save_new, Hup, Hfresh. simpl.
  rewrite Htok. split; reflexivity.
Qed.

(** X16: a registration is not undone when the token cannot be made:
    if [create] succeeds and the token service throws, the route answers
    400 with the message of the token service, and the new account
    stays in the store. *)
Theorem post_auth_new_token_failure_keeps_account (salt : nat)
  (dto : CreateDto.t) (s : Store) (err : Exn) :
  outage s = None ->
  (forall u, In u (users s) -> username u <> CreateDto.username dto) ->
  createToken (registered salt dto (nextId s)) = Throw err ->
  post_auth_new salt dto s
  = {| status := 400; body := ErrorBody (message err) |}
  /\ users (snd (new salt dto s))
     = (users s ++ [registered salt dto (nextId s)])%list
  /\ writes (snd (new salt dto s)) = S (writes s).
Proof.
  intros Hup Hfresh Htok.
  apply (proj2 (usernameTaken_fresh _ _)) in Hfresh.
  unfold post_auth_new.
  rewrite new_run, create_run, save_new, Hup, Hfresh. simpl.
  rewrite Htok. repeat split.
Qed.

(** X17: a registration under a username that is taken is answered 400
    with the message "User already exists.", and the store is left as
    it was. *)
Theorem post_auth_new_taken (salt : nat) (dto : CreateDto.t) (s : Store)
  (u : User) :
  In u (users s) ->
  username u = CreateDto.username dto ->
  post_auth_new salt dto s
  = {| status := 400; body := ErrorBody "User already exists." |}
  /\ snd (new salt dto s) = s.
Proof.
  intros Hin Hn.
  assert (T : usernameTaken (CreateDto.username dto) (users s) = true).
  { apply usernameTaken_spec. exists u. split; trivial. }
  unfold post_auth_new. rewrite new_run, create_run, save_new, T.
  destruct (outage s); split; reflexivity.
Qed.

(** X18: [POST /auth/exists] answers 200 with [existing] telling
    whether an account has exactly this username when the store
    answers, and 400 with the message of the driver when it does not;
    it never changes the store. *)
Theorem post_auth_exists_response (name : string) (s : Store) :
  (outage s = None ->
     post_auth_exists name s
     = {| status := 200;
          body := Json {| existing := usernameTaken name (users s) |} |})
  /\ (forall m, outage s = Some m ->
        post_auth_exists name s = {| status := 400; body := ErrorBody m |})
  /\ snd (AuthContoller.checkIfExists name s) = s.
Proof.
  unfold post_auth_exists.
  rewrite controller_checkIfExists_run, checkIfExists_run.
  split; [|split].
  - intros ->. reflexivity.
  - intros m ->. reflexivity.
  - destruct (outage s); reflexivity.
Qed.

(** X19: a login with the right password is answered 200 with the token
    made for the account found, when the token service delivers; and
    [authorize] leaves the store as it was, whatever its outcome. *)
Theorem post_auth_ok (dto : AuthorizeDto.t) (s : Store) (u : User)
  (rest : list Document) (token : AuthTokenResult) :
  outage s = None ->
  find (AuthorizeDto.username dto) (users s) = hydrate u :: rest ->
  compare (AuthorizeDto.password dto) (password u) = true ->
  createToken u = Return token ->
  post_auth dto s = {| status := 200; body := Json token |}
  /\ (forall dto' s', snd (authorize dto' s') = s').
Proof.
  intros Hup Hf Hc Htok. split.
  - unfold post_auth.
    rewrite authorize_run, (verify_found dto s u rest Hup Hf), Hc.
    simpl. rewrite Htok. reflexivity.
  - intros dto' s'. rewrite authorize_run.
    pose proof (verify_read_only dto' s') as R.
    destruct (verify dto' s') as [[user|err] s'']; simpl in R; subst;
      [|reflexivity].
    destruct (createToken (doc user)); reflexivity.
Qed.

End WithServices.

Lemma post_auth_new_created_witness :
  post_auth_new (bcrypt := Fixture.demoBcrypt) (auth := Fixture.demoAuth)
    68 FixtureMore.carolDto Fixture.twoStore
  = {| status := 201; body := Json "token:carol" |}
  /\ users (snd (new (bcrypt := Fixture.demoBcrypt)
                  (auth := Fixture.demoAuth) 68 FixtureMore.carolDto
                  Fixture.twoStore))
     = (users Fixture.twoStore
        ++ [registered (bcrypt := Fixture.demoBcrypt) 68
              FixtureMore.carolDto 2])%list.
Proof.
  apply (post_auth_new_created (bcrypt := Fixture.demoBcrypt)
           (auth := Fixture.demoAuth) 68 FixtureMore.carolDto
           Fixture.twoStore "token:carol");
    [reflexivity | | reflexivity].
  intros u [<- | [<- | []]]; simpl; discriminate.
Defined.

Lemma post_auth_new_token_failure_keeps_account_witness :
  post_auth_new (bcrypt := Fixture.demoBcrypt)
    (auth := FixtureMore.brokenAuth) 68 FixtureMore.carolDto
    Fixture.twoStore
  = {| status := 400; body := ErrorBody "signing key missing" |}
  /\ users (snd (new (bcrypt := Fixture.demoBcrypt)
                  (auth := FixtureMore.brokenAuth) 68 FixtureMore.carolDto
                  Fixture.twoStore))
     = (users Fixture.twoStore
        ++ [registered (bcrypt := Fixture.demoBcrypt) 68
              FixtureMore.carolDto 2])%list
  /\ writes (snd (new (bcrypt := Fixture.demoBcrypt)
                   (auth := FixtureMore.brokenAuth) 68
                   FixtureMore.carolDto Fixture.twoStore))
     = 3.
Proof.
  apply (post_auth_new_token_failure_keeps_account
           (bcrypt := Fixture.demoBcrypt) (auth := FixtureMore.brokenAuth)
           68 FixtureMore.carolDto Fixture.twoStore
           (Error "signing key missing"));
    [reflexivity | | reflexivity].
  intros u [<- | [<- | []]]; simpl; discriminate.
Defined.

Lemma post_auth_new_taken_witness :
  post_auth_new (bcrypt := Fixture.demoBcrypt) (auth := Fixture.demoAuth)
    70 Fixture.aliceDto Fixture.twoStore
  = {| status := 400; body := ErrorBody "User already exists." |}
  /\ snd (new (bcrypt := Fixture.demoBcrypt) (auth := Fixture.demoAuth)
            70 Fixture.aliceDto Fixture.twoStore)
     = Fixture.twoStore.
Proof.
  apply (post_auth_new_taken (bcrypt := Fixture.demoBcrypt)
           (auth := Fixture.demoAuth) 70 Fixture.aliceDto Fixture.twoStore
           Fixture.alice).
  - simpl. left. reflexivity.
  - reflexivity.
Defined.

Lemma post_auth_exists_response_witness :
  post_auth_exists "bob" Fixture.twoStore
  = {| status := 200; body := Json {| existing := true |} |}
  /\ post_auth_exists "bob" Fixture.downStore
     = {| status := 400; body := ErrorBody "connection refused" |}.
Proof.
  split.
  - apply (post_auth_exists_response "bob" Fixture.twoStore). reflexivity.
  - apply (post_auth_exists_response "bob" Fixture.downStore). reflexivity.
Defined.

Lemma post_auth_ok_witness :
  post_auth (bcrypt := Fixture.demoBcrypt) (auth := Fixture.demoAuth)
    (AuthorizeDto.mk "alice" "s3cret") Fixture.twoStore
  = {| status := 200; body := Json "token:alice" |}.
Proof.
  apply (post_auth_ok (bcrypt := Fixture.demoBcrypt)
           (auth := Fixture.demoAuth) (AuthorizeDto.mk "alice" "s3cret")
           Fixture.twoStore Fixture.alice [] "token:alice");
    reflexivity.
Defined.

End AuthContollerMore.
